(** * cinema-tickets-javascript: the ticket request and the ticket service

    A shallow embedding of [TicketTypeRequest] (src/pairtest/lib) and of
    [TicketService] (src/pairtest/TicketService.js), with the statements the
    specification makes about them.

    Conventions of the embedding:
    - a JavaScript number that [Number.isInteger] accepts is carried as its
      value in [Z]; the sums and products the service makes of such numbers
      are those of IEEE double arithmetic, rounded to nearest, ties to even,
      overflowing to an infinity ([Double]);
    - the account id is an integer, as the specification types it;
    - a thrown value is an [Error] object, with a [message] that is or is
      not the one of an [InvalidPurchaseException], or it is [null] or
      [undefined];
    - the two collaborators are functions of their arguments that either
      return a value or throw; every call to them and every console line is
      recorded, in order, in a trace. *)

From Stdlib Require Import ZArith List String Bool Lia Permutation.
Import ListNotations.
Open Scope string_scope.
Open Scope list_scope.
Open Scope Z_scope.

(** ** JavaScript values *)

Module Js.

(** Numbers, as far as [Number.isInteger] and [ToBoolean] tell them apart.
    [NonInteger z] is a finite number strictly between [z] and [z + 1]. *)
Inductive Number :=
| NaN
| PosInfinity
| NegInfinity
| Integer (z : Z)
| NonInteger (below : Z).

Inductive Value :=
| Undefined
| Null
| Boolean (b : bool)
| Num (n : Number)
| Str (s : string)
| Object.

(** [Number.isInteger(v)]: [v] is a number, finite, without fraction. *)
Definition isInteger (v : Value) : bool :=
  match v with
  | Num (Integer _) => true
  | _ => false
  end.

(** [ToBoolean], the coercion an [if] applies to its condition. *)
Definition ToBoolean (v : Value) : bool :=
  match v with
  | Undefined | Null => false
  | Boolean b => b
  | Num NaN => false
  | Num (Integer z) => negb (z =? 0)
  | Num _ => true
  | Str s => negb (s =? "")%string
  | Object => true
  end.

(** [Array.prototype.includes] on an array of strings: strict comparison,
    so only a string can be found. *)
Definition includes (a : list string) (v : Value) : bool :=
  match v with
  | Str s => existsb (String.eqb s) a
  | _ => false
  end.

(** [a.slice(0, -1)] and [a.slice(-1)]. *)
Definition slice_init {A} (a : list A) : list A := removelast a.
Definition slice_last {A} (a : list A) : list A :=
  match rev a with
  | [] => []
  | x :: _ => [x]
  end.

(** [a.join(sep)] on strings. *)
Fixpoint join (sep : string) (a : list string) : string :=
  match a with
  | [] => ""
  | [x] => x
  | x :: rest => (x ++ sep ++ join sep rest)%string
  end.

(** What [throw] carries. *)
Inductive ErrorClass := TypeError | InvalidPurchaseException | OtherError.

Record Error := mkError { class : ErrorClass; message : string }.

(** [error instanceof InvalidPurchaseException] *)
Definition instanceofInvalidPurchaseException (e : Error) : bool :=
  match class e with
  | InvalidPurchaseException => true
  | _ => false
  end.

(** The outcome of evaluating a call: a value, a thrown [Error] object, or
    a thrown [null] or [undefined]. For a thrown value that is neither,
    [message] is what its [message] property prints as. *)
Inductive Outcome (A : Type) :=
| Gives (a : A)
| Throws (e : Error)
| ThrowsNullish.
Arguments Gives {A} a.
Arguments Throws {A} e.
Arguments ThrowsNullish {A}.

(** What [catch (error)] binds. *)
Inductive Thrown :=
| AnError (e : Error)
| Nullish.

(** [error instanceof InvalidPurchaseException] on a caught value: [null]
    and [undefined] are instances of nothing. *)
Definition caughtInstanceof (error : Thrown) : bool :=
  match error with
  | AnError e => instanceofInvalidPurchaseException e
  | Nullish => false
  end.

(** The TypeError of reading a property of [null] or [undefined] (its
    wording is the engine's). *)
Definition nullishTypeError : Error :=
  mkError TypeError "Cannot read properties of null (reading 'message')".

(** [error.message] on a caught value. *)
Definition caughtMessage (error : Thrown) : Outcome string :=
  match error with
  | AnError e => Gives (message e)
  | Nullish => Throws nullishTypeError
  end.

End Js.

(** ** TicketTypeRequest *)

(** The three strings of [#Type]. A constructed request holds one of them. *)
Inductive TicketType := ADULT | CHILD | INFANT.

Definition TicketType_eqb (a b : TicketType) : bool :=
  match a, b with
  | ADULT, ADULT | CHILD, CHILD | INFANT, INFANT => true
  | _, _ => false
  end.

Definition TicketType_name (t : TicketType) : string :=
  match t with
  | ADULT => "ADULT"
  | CHILD => "CHILD"
  | INFANT => "INFANT"
  end.

Definition TicketType_of_string (s : string) : option TicketType :=
  if (s =? "ADULT")%string then Some ADULT
  else if (s =? "CHILD")%string then Some CHILD
  else if (s =? "INFANT")%string then Some INFANT
  else None.

Module TicketTypeRequest.

(** The private fields [#type] and [#noOfTickets]. Nothing assigns them
    but the constructor. *)
Record t := mk { type : TicketType; noOfTickets : Z }.

(** [#Type = ['ADULT', 'CHILD', 'INFANT']] *)
Definition Type_ : list string := ["ADULT"; "CHILD"; "INFANT"].

Definition type_message : string :=
  ("type must be one of " ++ Js.join ", " (Js.slice_init Type_)
     ++ ", or " ++ Js.join "," (Js.slice_last Type_))%string.

(** [constructor(type, noOfTickets)]. Past the two checks [type] is one of
    the three strings and [noOfTickets] an integer; the final match reads
    them off, and none of its other branches is ever taken. *)
Definition constructor (type noOfTickets : Js.Value) : Js.Outcome t :=
  if negb (Js.includes Type_ type) then
    Js.Throws (Js.mkError Js.TypeError type_message)
  else if negb (Js.isInteger noOfTickets) then
    Js.Throws (Js.mkError Js.TypeError "noOfTickets must be an integer")
  else
    match type, noOfTickets with
    | Js.Str s, Js.Num (Js.Integer z) =>
        match TicketType_of_string s with
        | Some ty => Js.Gives (mk ty z)
        | None => Js.Throws (Js.mkError Js.TypeError type_message)
        end
    | _, _ => Js.Throws (Js.mkError Js.TypeError type_message)
    end.

(** [getNoOfTickets()] *)
Definition getNoOfTickets (r : t) : Z := noOfTickets r.

(** [getTicketType()] *)
Definition getTicketType (r : t) : TicketType := type r.

End TicketTypeRequest.

(** ** Double arithmetic on integers *)

Module Double.

(** The doubles that sums and products of integers can be: an integer (a
    finite double of magnitude 2^53 or more is one), an infinity after an
    overflow, or NaN. [Int z] is a double when [z] has at most 53
    significant bits and is below 2^1024 in magnitude; on such values the
    operations below are the IEEE ones, the exact result rounded. The two
    zeros are one here: an accumulator that starts at 0 is never -0, and -0
    adds and compares as 0. *)
Inductive t :=
| Int (z : Z)
| PosInf
| NegInf
| NaN.

(** [Number.MAX_SAFE_INTEGER] *)
Definition MAX_SAFE_INTEGER : Z := 2 ^ 53 - 1.

(** The double nearest to the integer [z], ties to the even mantissa: up to
    [MAX_SAFE_INTEGER] it is [z]; beyond, [z] is cut to 53 significant
    bits, and a result of 2^1024 or more is an infinity. *)
Definition round (z : Z) : t :=
  let a := Z.abs z in
  if a <=? MAX_SAFE_INTEGER then Int z
  else
    let e := Z.log2 a - 52 in
    let q := a / 2 ^ e in
    let r := a mod 2 ^ e in
    let half := 2 ^ (e - 1) in
    let m :=
      if r <? half then q
      else if half <? r then q + 1
      else if Z.even q then q else q + 1 in
    let v := m * 2 ^ e in
    if 2 ^ 1024 <=? v then (if z <? 0 then NegInf else PosInf)
    else Int (Z.sgn z * v).

(** [a + b] *)
Definition add (a b : t) : t :=
  match a, b with
  | NaN, _ | _, NaN => NaN
  | PosInf, NegInf | NegInf, PosInf => NaN
  | PosInf, _ | _, PosInf => PosInf
  | NegInf, _ | _, NegInf => NegInf
  | Int x, Int y => round (x + y)
  end.

(** [a * b] *)
Definition mul (a b : t) : t :=
  match a, b with
  | NaN, _ | _, NaN => NaN
  | Int x, Int y => round (x * y)
  | PosInf, Int y | Int y, PosInf =>
      if y =? 0 then NaN else if y <? 0 then NegInf else PosInf
  | NegInf, Int y | Int y, NegInf =>
      if y =? 0 then NaN else if y <? 0 then PosInf else NegInf
  | PosInf, PosInf | NegInf, NegInf => PosInf
  | PosInf, NegInf | NegInf, PosInf => NegInf
  end.

(** [a > b]: false as soon as one side is NaN. *)
Definition gtb (a b : t) : bool :=
  match a, b with
  | NaN, _ | _, NaN => false
  | Int x, Int y => x >? y
  | PosInf, PosInf => false
  | PosInf, _ => true
  | Int _, NegInf => true
  | _, _ => false
  end.

(** [a === b]: NaN equals nothing. *)
Definition strict_eqb (a b : t) : bool :=
  match a, b with
  | Int x, Int y => x =? y
  | PosInf, PosInf | NegInf, NegInf => true
  | _, _ => false
  end.

(** A double above every safe integer: a finite one, or the infinity. *)
Definition beyondSafe (x : t) : Prop :=
  x = PosInf \/ exists z, x = Int z /\ MAX_SAFE_INTEGER < z.

End Double.

Coercion Double.Int : Z >-> Double.t.

(** ** Statements of a function body

    What a method body does, in the order it does it: it appends to the
    trace, reads and assigns the local variable [numSeatsToReserve], and
    completes normally, by [return], or by [throw]. An assignment made
    before a [throw] stays made. *)

Inductive Event :=
| ConsoleLog (line : string)
| ConsoleError (line : string)
| MakePayment (accountId : Z) (totalAmountToPay : Double.t)
| ReserveSeats (accountId : Z) (totalSeatsToAllocate : Double.t).

Module Stmt.

Inductive Completion (A : Type) :=
| Normal (a : A)
| Return (v : Double.t)
| Throw (error : Js.Thrown).
Arguments Normal {A} a.
Arguments Return {A} v.
Arguments Throw {A} error.

Definition t (A : Type) : Type :=
  Double.t -> list Event * Double.t * Completion A.

Definition ret {A} (a : A) : t A := fun s => ([], s, Normal a).

Definition bind {A B} (m : t A) (k : A -> t B) : t B :=
  fun s =>
    match m s with
    | (tr, s', Normal a) =>
        let '(tr', s'', c) := k a s' in (tr ++ tr', s'', c)
    | (tr, s', Return v) => (tr, s', Return v)
    | (tr, s', Throw e) => (tr, s', Throw e)
    end.

Definition read : t Double.t := fun s => ([], s, Normal s).

Definition assign (v : Double.t) : t unit := fun _ => ([], v, Normal tt).

Definition emit (e : Event) : t unit := fun s => ([e], s, Normal tt).

Definition return_ {A} (v : Double.t) : t A :=
  fun s => ([], s, Return v).

(** A call to a collaborator: the call is recorded, then its outcome is
    the outcome of the statement. *)
Definition call {A} (e : Event) (o : Js.Outcome A) : t A :=
  fun s =>
    match o with
    | Js.Gives a => ([e], s, Normal a)
    | Js.Throws err => ([e], s, Throw (Js.AnError err))
    | Js.ThrowsNullish => ([e], s, Throw Js.Nullish)
    end.

(** An expression that gives a value or throws, such as a property read. *)
Definition eval {A} (o : Js.Outcome A) : t A :=
  fun s =>
    match o with
    | Js.Gives a => ([], s, Normal a)
    | Js.Throws err => ([], s, Throw (Js.AnError err))
    | Js.ThrowsNullish => ([], s, Throw Js.Nullish)
    end.

(** [if (c) { body }] with no [else]. *)
Definition when (c : bool) (body : t unit) : t unit :=
  if c then body else ret tt.

(** [try { body } catch (error) { handler }] *)
Definition try_catch (body : t unit) (handler : Js.Thrown -> t unit)
  : t unit :=
  fun s =>
    match body s with
    | (tr, s', Throw e) =>
        let '(tr', s'', c) := handler e s' in (tr ++ tr', s'', c)
    | r => r
    end.

(** Running a method body: the trace and how the method completed. *)
Definition run {A} (m : t A) : list Event * Completion A :=
  let '(tr, _, c) := m (Double.Int 0) in (tr, c).

End Stmt.

Notation "x <- m ;; k" := (Stmt.bind m (fun x => k))
  (at level 61, m at next level, right associativity).
Notation "m ;; k" := (Stmt.bind m (fun _ => k))
  (at level 61, right associativity).

Definition console_log (line : string) : Stmt.t unit :=
  Stmt.emit (ConsoleLog line).
Definition console_error (line : string) : Stmt.t unit :=
  Stmt.emit (ConsoleError line).

(** ** TicketService *)

(** The two collaborators, as the service uses them. *)
Record PaymentService := {
  makePayment : Z -> Double.t -> Js.Outcome Js.Value
}.

Record ReservationService := {
  reserveSeats : Z -> Double.t -> Js.Outcome Js.Value
}.

Module TicketService.

Import TicketTypeRequest.

Record t := mk {
  paymentService : PaymentService;
  reservationService : ReservationService;
  ticketPrices : TicketType -> Z;
  maxTicketsPerPurchase : Z
}.

(** [constructor(paymentService, reservationService)] *)
Definition constructor (paymentService : PaymentService)
    (reservationService : ReservationService) : t :=
  {| paymentService := paymentService;
     reservationService := reservationService;
     ticketPrices := fun ty =>
       match ty with
       | INFANT => 0
       | CHILD => 10
       | ADULT => 20
       end;
     maxTicketsPerPurchase := 20 |}.

(** [#isValidPurchaseRequest(ticketTypeRequests)] *)
Definition isValidPurchaseRequest (this : t)
    (ticketTypeRequests : list TicketTypeRequest.t) : bool :=
  let totalQuantity :=
    fold_left
      (fun total request =>
         Double.add total (Double.Int (getNoOfTickets request)))
      ticketTypeRequests (Double.Int 0) in
  if Double.gtb totalQuantity (Double.Int (maxTicketsPerPurchase this))
  then false
  else
    let hasAdultTicket :=
      existsb (fun request => TicketType_eqb (getTicketType request) ADULT)
        ticketTypeRequests in
    let hasChildOrInfantWithoutAdult :=
      existsb
        (fun request =>
           (TicketType_eqb (getTicketType request) CHILD
            || TicketType_eqb (getTicketType request) INFANT)
           && negb hasAdultTicket)
        ticketTypeRequests in
    hasAdultTicket && negb hasChildOrInfantWithoutAdult.

(** [#calculateTotalAmount(ticketTypeRequests)] *)
Definition calculateTotalAmount (this : t)
    (ticketTypeRequests : list TicketTypeRequest.t) : Double.t :=
  fold_left
    (fun total request =>
       let ticketType := getTicketType request in
       let ticketQuantity := getNoOfTickets request in
       Double.add total
         (Double.mul (Double.Int (ticketPrices this ticketType))
            (Double.Int ticketQuantity)))
    ticketTypeRequests (Double.Int 0).

(** [#calculateNumSeatsToReserve(ticketTypeRequests)] *)
Definition calculateNumSeatsToReserve (this : t)
    (ticketTypeRequests : list TicketTypeRequest.t) : Double.t :=
  fold_left
    (fun total request =>
       let ticketType := getTicketType request in
       let ticketQuantity := getNoOfTickets request in
       Double.add total
         (Double.Int (if negb (TicketType_eqb ticketType INFANT)
                      then ticketQuantity else 0)))
    ticketTypeRequests (Double.Int 0).

(** The body of [purchaseTickets(accountId, ticketTypeRequests)]. *)
Definition purchaseTickets_body (this : t) (accountId : Z)
    (ticketTypeRequests : list TicketTypeRequest.t) : Stmt.t unit :=
  Stmt.assign (Double.Int 0) ;;
  Stmt.when (accountId <=? 0)
    (console_log "Please provide a valid Account ID" ;;
     numSeatsToReserve <- Stmt.read ;;
     Stmt.return_ numSeatsToReserve) ;;
  Stmt.try_catch
    (Stmt.when (negb (isValidPurchaseRequest this ticketTypeRequests))
       (console_log "Not a valid Ticket Request. Please check the rules" ;;
        numSeatsToReserve <- Stmt.read ;;
        Stmt.return_ numSeatsToReserve) ;;
     let totalAmount := calculateTotalAmount this ticketTypeRequests in
     paid <- Stmt.call (MakePayment accountId totalAmount)
               (makePayment (paymentService this) accountId totalAmount) ;;
     if Js.ToBoolean paid then
       Stmt.assign (calculateNumSeatsToReserve this ticketTypeRequests) ;;
       numSeatsToReserve <- Stmt.read ;;
       Stmt.call (ReserveSeats accountId numSeatsToReserve)
         (reserveSeats (reservationService this) accountId
            numSeatsToReserve) ;;
       console_log "Ticket purchase successful!"
     else
       console_log "Payment failed. Ticket purchase unsuccessful.")
    (fun error =>
       if Js.caughtInstanceof error then
         message <- Stmt.eval (Js.caughtMessage error) ;;
         console_error ("InvalidPurchaseException: " ++ message)%string
       else
         message <- Stmt.eval (Js.caughtMessage error) ;;
         console_error ("An unexpected error occurred: " ++ message)%string) ;;
  numSeatsToReserve <- Stmt.read ;;
  Stmt.return_ numSeatsToReserve.

(** [purchaseTickets(accountId, ticketTypeRequests)]: what it does and
    how it completes. *)
Definition purchaseTickets (this : t) (accountId : Z)
    (ticketTypeRequests : list TicketTypeRequest.t)
  : list Event * Stmt.Completion unit :=
  Stmt.run (purchaseTickets_body this accountId ticketTypeRequests).

End TicketService.

(** Unfolding the body of [purchaseTickets] down to its trace. *)
Ltac run_body :=
  unfold TicketService.purchaseTickets, TicketService.purchaseTickets_body,
    Stmt.run, Stmt.bind, Stmt.try_catch, Stmt.when, Stmt.call, Stmt.eval,
    Stmt.assign, Stmt.read, Stmt.return_, Stmt.ret, console_log,
    console_error, Stmt.emit.

(** Splitting a statement of the eight ways a call can go into its cases,
    and rewriting with what each case knows. *)
Ltac each_way H a :=
  let Hle := fresh "Hle" in
  let Hgt := fresh "Hgt" in
  let Hv := fresh "Hv" in
  let Hp := fresh "Hp" in
  let Hb := fresh "Hb" in
  let Hr := fresh "Hr" in
  let Hout := fresh "Hout" in
  let v := fresh "v" in
  let w := fresh "w" in
  let e := fresh "e" in
  destruct H
    as [[Hle Hout]
       | [[Hgt [Hv Hout]]
         | [[Hgt [Hv [e [Hp Hout]]]]
           | [[Hgt [Hv [Hp Hout]]]
             | [[Hgt [Hv [v [Hp [Hb Hout]]]]]
               | [[Hgt [Hv [v [w [Hp [Hb [Hr Hout]]]]]]]
                 | [[Hgt [Hv [v [e [Hp [Hb [Hr Hout]]]]]]]
                   | [Hgt [Hv [v [Hp [Hb [Hr Hout]]]]]]]]]]]]];
  rewrite Hout;
  try rewrite Hv; try rewrite Hp; try rewrite Hb; try rewrite Hr;
  try (replace (0 <? a) with true by (symmetry; apply Z.ltb_lt; lia));
  try (replace (0 <? a) with false by (symmetry; apply Z.ltb_ge; lia)).



(** ** Reading a trace *)

Definition paymentCalls (tr : list Event) : list (Z * Double.t) :=
  flat_map (fun e => match e with
                     | MakePayment a n => [(a, n)]
                     | _ => []
                     end) tr.

Definition reservationCalls (tr : list Event) : list (Z * Double.t) :=
  flat_map (fun e => match e with
                     | ReserveSeats a n => [(a, n)]
                     | _ => []
                     end) tr.

(** No collaborator was called. *)
Definition noCollaboratorCalled (tr : list Event) : Prop :=
  paymentCalls tr = [] /\ reservationCalls tr = [].

(** A rejection as the specification describes it: the call returns 0 and
    neither collaborator was called. *)
Definition rejected (out : list Event * Stmt.Completion unit) : Prop :=
  snd out = Stmt.Return 0 /\ noCollaboratorCalled (fst out).

(** ** The specification's words *)

Module Spec.

Import TicketTypeRequest.

(** The price table: INFANT=0, CHILD=10, ADULT=20. *)
Definition unitPrice (ty : TicketType) : Z :=
  match ty with
  | INFANT => 0
  | CHILD => 10
  | ADULT => 20
  end.

Fixpoint sum (l : list Z) : Z :=
  match l with
  | [] => 0
  | x :: rest => x + sum rest
  end.

(** The sum of all entries' quantities. *)
Definition totalQuantity (rs : list TicketTypeRequest.t) : Z :=
  sum (map getNoOfTickets rs).

(** The sum over all entries of unitPrice[type] x quantity. *)
Definition totalCharged (rs : list TicketTypeRequest.t) : Z :=
  sum (map (fun r => unitPrice (getTicketType r) * getNoOfTickets r) rs).

Definition notInfant (r : TicketTypeRequest.t) : bool :=
  match getTicketType r with
  | INFANT => false
  | _ => true
  end.

(** The sum of quantities over the entries whose type is not INFANT. *)
Definition seatsOccupied (rs : list TicketTypeRequest.t) : Z :=
  sum (map getNoOfTickets (filter notInfant rs)).

(** The sequence has an entry of type [ty]. *)
Definition contains (ty : TicketType) (rs : list TicketTypeRequest.t)
  : Prop :=
  exists r, In r rs /\ getTicketType r = ty.

(** The sequence has an ADULT entry with quantity > 0. *)
Definition containsPositiveAdult (rs : list TicketTypeRequest.t) : Prop :=
  exists r, In r rs /\ getTicketType r = ADULT /\ getNoOfTickets r > 0.

(** The type argument is one of ADULT, CHILD, INFANT. *)
Definition recognizedType (v : Js.Value) : Prop :=
  v = Js.Str "ADULT" \/ v = Js.Str "CHILD" \/ v = Js.Str "INFANT".

(** The quantity argument is a whole number. *)
Definition wholeNumber (v : Js.Value) : Prop :=
  exists z, v = Js.Num (Js.Integer z).

(** The quantity argument is a non-negative whole number. *)
Definition nonNegativeWholeNumber (v : Js.Value) : Prop :=
  exists z, v = Js.Num (Js.Integer z) /\ 0 <= z.

(** The Payment collaborator reports success, or failure, for this
    purchase: what [makePayment] gives is truthy, or falsy. *)
Definition paymentSucceeds (p : PaymentService) (accountId : Z)
    (amount : Double.t) : Prop :=
  exists v, makePayment p accountId amount = Js.Gives v
            /\ Js.ToBoolean v = true.

Definition paymentFails (p : PaymentService) (accountId : Z)
    (amount : Double.t) : Prop :=
  exists v, makePayment p accountId amount = Js.Gives v
            /\ Js.ToBoolean v = false.

End Spec.

(** ** The collaborators of the test suite, and two that throw *)

Module Mock.

(** [makePayment: () => true] *)
Definition paymentServiceMock : PaymentService :=
  {| makePayment := fun _ _ => Js.Gives (Js.Boolean true) |}.

(** [reserveSeats: () => true] *)
Definition reservationServiceMock : ReservationService :=
  {| reserveSeats := fun _ _ => Js.Gives (Js.Boolean true) |}.

(** [makePayment: () => false] *)
Definition paymentServiceDeclines : PaymentService :=
  {| makePayment := fun _ _ => Js.Gives (Js.Boolean false) |}.

(** [reserveSeats: () => false] *)
Definition reservationServiceFalse : ReservationService :=
  {| reserveSeats := fun _ _ => Js.Gives (Js.Boolean false) |}.

(** [makePayment: () => { throw new Error('gateway down') }] *)
Definition paymentServiceThrows : PaymentService :=
  {| makePayment := fun _ _ =>
       Js.Throws (Js.mkError Js.OtherError "gateway down") |}.

(** [reserveSeats: () => { throw new Error('no seats') }] *)
Definition reservationServiceThrows : ReservationService :=
  {| reserveSeats := fun _ _ =>
       Js.Throws (Js.mkError Js.OtherError "no seats") |}.

End Mock.

(** ** InvalidPurchaseException *)

Module InvalidPurchaseException.

(** [constructor(message)]: [super(message)] keeps the message, and the
    object is an instance of this class. *)
Definition constructor (message : string) : Js.Error :=
  Js.mkError Js.InvalidPurchaseException message.

End InvalidPurchaseException.

(** ** Console lines of a trace, and quantities by ticket type *)

(** The lines written with [console.log], in order. *)
Definition logLines (tr : list Event) : list string :=
  flat_map (fun e => match e with
                     | ConsoleLog line => [line]
                     | _ => []
                     end) tr.

(** The lines written with [console.error], in order. *)
Definition errorLines (tr : list Event) : list string :=
  flat_map (fun e => match e with
                     | ConsoleError line => [line]
                     | _ => []
                     end) tr.

(** The line the [catch] block of [purchaseTickets] writes for an error. *)
Definition caughtLine (error : Js.Error) : string :=
  ((if Js.instanceofInvalidPurchaseException error
    then "InvalidPurchaseException: "
    else "An unexpected error occurred: ") ++ Js.message error)%string.

Module Tally.

Import TicketTypeRequest.

Definition ofType (ty : TicketType) (r : TicketTypeRequest.t) : bool :=
  TicketType_eqb (getTicketType r) ty.

(** The sum of the quantities of the entries of type [ty]. *)
Definition quantityOf (ty : TicketType) (rs : list TicketTypeRequest.t)
  : Z :=
  Spec.sum (map getNoOfTickets (filter (ofType ty) rs)).

(** Some entry has type ADULT. *)
Definition hasAdultEntry (rs : list TicketTypeRequest.t) : bool :=
  existsb (ofType ADULT) rs.

(** No entry has a negative quantity. *)
Definition nonNegative (rs : list TicketTypeRequest.t) : Prop :=
  Forall (fun r => 0 <= getNoOfTickets r) rs.

(** The quantities are small enough for every sum and product the service
    makes of them to be exact: 20 times the sum of their magnitudes is a
    safe integer. *)
Definition withinExactRange (rs : list TicketTypeRequest.t) : Prop :=
  20 * Spec.sum (map (fun r => Z.abs (getNoOfTickets r)) rs)
  <= Double.MAX_SAFE_INTEGER.

End Tally.

(** ** The test suite (TicketServiceTest.js) *)

Module TicketServiceTest.

Record t := mk {
  ticketService : option TicketService.t;
  accountId : Z;
  reservedSeats : Z
}.

(** [constructor()]: [ticketService = null], the two numbers 0. *)
Definition constructor : t :=
  {| ticketService := None; accountId := 0; reservedSeats := 0 |}.

(** [beforeEach()] *)
Definition beforeEach (this : t) : t :=
  {| ticketService :=
       Some (TicketService.constructor Mock.paymentServiceMock
               Mock.reservationServiceMock);
     accountId := 123;
     reservedSeats := 0 |}.

(** An array literal [[new TicketTypeRequest(type, n), ...]]: the elements
    are constructed from left to right, and the first throw ends it. *)
Fixpoint requests (args : list (string * Z))
  : Js.Outcome (list TicketTypeRequest.t) :=
  match args with
  | [] => Js.Gives []
  | (type, n) :: rest =>
      match TicketTypeRequest.constructor (Js.Str type)
              (Js.Num (Js.Integer n)) with
      | Js.Throws e => Js.Throws e
      | Js.ThrowsNullish => Js.ThrowsNullish
      | Js.Gives r =>
          match requests rest with
          | Js.Throws e => Js.Throws e
          | Js.ThrowsNullish => Js.ThrowsNullish
          | Js.Gives rs => Js.Gives (r :: rs)
          end
      end
  end.

(** [this.ticketService.purchaseTickets(this.accountId, ticketTypeRequests)]
    as an expression: its value, or nothing when the call throws. *)
Definition purchaseTickets (this : t)
    (ticketTypeRequests : list TicketTypeRequest.t) : option Double.t :=
  match ticketService this with
  | None => None
  | Some service =>
      match snd (TicketService.purchaseTickets service (accountId this)
                   ticketTypeRequests) with
      | Stmt.Return v => Some v
      | _ => None
      end
  end.

(** [expect(result).to.equal(expected)]: whether the expectation holds. *)
Definition expect_equal (result : option Double.t) (expected : Z) : bool :=
  match result with
  | Some v => Double.strict_eqb v (Double.Int expected)
  | None => false
  end.

(** A test that builds its requests, changes the fixture, purchases, and
    expects the result to equal [this.reservedSeats]. *)
Definition purchase_test (args : list (string * Z)) (change : t -> t)
    (this : t) : t * bool :=
  match requests args with
  | Js.Throws _ | Js.ThrowsNullish => (this, false)
  | Js.Gives ticketTypeRequests =>
      let this := change this in
      let result := purchaseTickets this ticketTypeRequests in
      (this, expect_equal result (reservedSeats this))
  end.

(** 'should successfully purchase tickets for a valid request' *)
Definition test_valid_request : t -> t * bool :=
  purchase_test [("ADULT", 2); ("CHILD", 1)]
    (fun this =>
       {| ticketService := ticketService this;
          accountId := accountId this;
          reservedSeats := 3 |}).

(** 'should reserve only one seat for Adult and Infant' *)
Definition test_adult_and_infant : t -> t * bool :=
  purchase_test [("ADULT", 1); ("INFANT", 1)]
    (fun this =>
       {| ticketService := ticketService this;
          accountId := accountId this;
          reservedSeats := 1 |}).

(** 'should reject purchase for invalid account id' *)
Definition test_invalid_account_id : t -> t * bool :=
  purchase_test [("ADULT", 1)]
    (fun this =>
       {| ticketService := ticketService this;
          accountId := 0;
          reservedSeats := reservedSeats this |}).

(** 'should reject purchase for invalid ticket type': the expectations are
    in the [catch] block, so nothing is expected when nothing is thrown. *)
Definition test_invalid_ticket_type (this : t) : t * bool :=
  match requests [("UNKNOWN_TYPE", 2)] with
  | Js.Gives _ => (this, true)
  | Js.Throws error =>
      (this,
       match Js.class error with
       | Js.TypeError => true
       | _ => false
       end
       && (Js.message error
           =? "type must be one of ADULT, CHILD, or INFANT")%string)
  | Js.ThrowsNullish => (this, false)
  end.

(** 'should reject purchase for exceeding maximum tickets' *)
Definition test_exceeding_maximum : t -> t * bool :=
  purchase_test [("ADULT", 21)] (fun this => this).

(** 'should reject purchase without an Adult ticket' *)
Definition test_without_adult : t -> t * bool :=
  purchase_test [("CHILD", 1)] (fun this => this).

(** 'should reject purchase without sufficient funds' *)
Definition test_without_sufficient_funds : t -> t * bool :=
  purchase_test [("ADULT", 2)]
    (fun this =>
       {| ticketService :=
            Some (TicketService.constructor Mock.paymentServiceDeclines
                    Mock.reservationServiceFalse);
          accountId := accountId this;
          reservedSeats := reservedSeats this |}).

Definition tests : list (t -> t * bool) :=
  [test_valid_request; test_adult_and_infant; test_invalid_account_id;
   test_invalid_ticket_type; test_exceeding_maximum; test_without_adult;
   test_without_sufficient_funds].

(** Running a list of tests on one fixture, [beforeEach] before each of
    them: the fixture left behind and the verdicts, in order. *)
Fixpoint run (ts : list (t -> t * bool)) (this : t) : t * list bool :=
  match ts with
  | [] => (this, [])
  | test :: rest =>
      let '(this', ok) := test (beforeEach this) in
      let '(last, oks) := run rest this' in
      (last, ok :: oks)
  end.

(** [new TicketServiceTest().runTests()] *)
Definition runTests : list bool := snd (run tests constructor).

End TicketServiceTest.

(** * Properties *)

Import TicketTypeRequest.

(** ** The constructor of a request *)

Lemma includes_Type (v : Js.Value) :
  Js.includes Type_ v = true <-> Spec.recognizedType v.
Proof.
  unfold Spec.recognizedType, Js.includes, Type_. split.
  - destruct v as [ | | b | n | s | ]; try discriminate. simpl.
    destruct (String.eqb_spec s "ADULT") as [-> | _]; [ now left | ].
    destruct (String.eqb_spec s "CHILD") as [-> | _]; [ now right; left | ].
    destruct (String.eqb_spec s "INFANT") as [-> | _]; [ now right; right | ].
    discriminate.
  - intros [-> | [-> | ->]]; reflexivity.
Qed.

Lemma isInteger_whole (v : Js.Value) :
  Js.isInteger v = true <-> Spec.wholeNumber v.
Proof.
  unfold Spec.wholeNumber. split.
  - destruct v as [ | | b | [ | | | z | z ] | s | ]; try discriminate.
    intros _. now exists z.
  - intros [z ->]. reflexivity.
Qed.

Lemma TicketType_of_name (ty : TicketType) :
  TicketType_of_string (TicketType_name ty) = Some ty.
Proof. destruct ty; reflexivity. Qed.

Lemma TicketType_name_of (s : string) (ty : TicketType) :
  TicketType_of_string s = Some ty -> TicketType_name ty = s.
Proof.
  unfold TicketType_of_string.
  destruct (String.eqb_spec s "ADULT") as [-> | _];
    [ now intros [= <-] | ].
  destruct (String.eqb_spec s "CHILD") as [-> | _];
    [ now intros [= <-] | ].
  destruct (String.eqb_spec s "INFANT") as [-> | _];
    [ now intros [= <-] | discriminate ].
Qed.

(** The constructor, case by case: it gives an object exactly for a
    recognised type and an integer, and what it gives holds both. *)
Lemma constructor_gives (ty q : Js.Value) (r : TicketTypeRequest.t) :
  constructor ty q = Js.Gives r <->
  ty = Js.Str (TicketType_name (getTicketType r))
  /\ q = Js.Num (Js.Integer (getNoOfTickets r)).
Proof.
  unfold constructor. split.
  - destruct (Js.includes Type_ ty) eqn:Hty; simpl; [ | discriminate ].
    destruct (Js.isInteger q) eqn:Hq; simpl; [ | discriminate ].
    destruct ty as [ | | b | n | s | ]; try discriminate.
    destruct q as [ | | b | [ | | | z | z ] | s' | ]; try discriminate.
    destruct (TicketType_of_string s) as [t' | ] eqn:Hs; [ | discriminate ].
    intros [= <-]. simpl. now rewrite (TicketType_name_of _ _ Hs).
  - intros [-> ->]. destruct r as [t' z]. now destruct t'.
Qed.

Lemma constructor_throws (ty q : Js.Value) (e : Js.Error) :
  constructor ty q = Js.Throws e -> Js.class e = Js.TypeError.
Proof.
  unfold constructor.
  destruct (Js.includes Type_ ty); simpl; [ | now intros [= <-] ].
  destruct (Js.isInteger q); simpl; [ | now intros [= <-] ].
  destruct ty as [ | | b | n | s | ]; try now intros [= <-].
  destruct q as [ | | b | [ | | | z | z ] | s' | ]; try now intros [= <-].
  destruct (TicketType_of_string s); [ discriminate | now intros [= <-] ].
Qed.

Import TicketService.

(** ** Rounding *)

Lemma MAX_SAFE_INTEGER_eq : Double.MAX_SAFE_INTEGER = 9007199254740991.
Proof. reflexivity. Qed.

(** A safe integer is a double: rounding leaves it as it is. *)
Lemma round_safe (z : Z) :
  Z.abs z <= Double.MAX_SAFE_INTEGER -> Double.round z = Double.Int z.
Proof.
  intros H. unfold Double.round.
  destruct (Z.leb_spec (Z.abs z) Double.MAX_SAFE_INTEGER);
    [ reflexivity | lia ].
Qed.

(** Rounding an integer above the safe ones does not bring it back among
    them. *)
Lemma round_beyondSafe (z : Z) :
  Double.MAX_SAFE_INTEGER < z -> Double.beyondSafe (Double.round z).
Proof.
  intros H. pose proof MAX_SAFE_INTEGER_eq as HM.
  unfold Double.round, Double.beyondSafe.
  destruct (Z.leb_spec (Z.abs z) Double.MAX_SAFE_INTEGER) as [Hle | _];
    [ lia | ].
  rewrite (Z.abs_eq z) by lia.
  set (e := Z.log2 z - 52).
  assert (Hlog : 53 <= Z.log2 z).
  { apply Z.log2_le_pow2; [ lia | ]. rewrite HM in H.
    change (2 ^ 53) with 9007199254740992. lia. }
  assert (He : 1 <= e) by (unfold e; lia).
  assert (Hpow : 0 < 2 ^ e) by (apply Z.pow_pos_nonneg; lia).
  assert (Hq : 2 ^ 52 <= z / 2 ^ e).
  { apply Z.div_le_lower_bound; [ exact Hpow | ].
    rewrite <- Z.pow_add_r by lia.
    replace (e + 52) with (Z.log2 z) by (unfold e; lia).
    apply Z.log2_spec. lia. }
  set (q := z / 2 ^ e) in *.
  set (m := if z mod 2 ^ e <? 2 ^ (e - 1) then q
            else if 2 ^ (e - 1) <? z mod 2 ^ e then q + 1
                 else if Z.even q then q else q + 1).
  assert (Hm : q <= m).
  { unfold m. destruct (_ <? _); [ lia | ].
    destruct (_ <? _); [ lia | ]. destruct (Z.even q); lia. }
  destruct (2 ^ 1024 <=? m * 2 ^ e).
  - left. destruct (Z.ltb_spec z 0); [ lia | reflexivity ].
  - right. exists (Z.sgn z * (m * 2 ^ e)). split; [ reflexivity | ].
    rewrite Z.sgn_pos by lia. rewrite Z.mul_1_l.
    assert (H2 : 2 <= 2 ^ e).
    { change 2 with (2 ^ 1) at 1. apply Z.pow_le_mono_r; lia. }
    change (2 ^ 52) with 4503599627370496 in Hq.
    rewrite HM. nia.
Qed.

Lemma beyondSafe_add (x : Double.t) (q : Z) :
  Double.beyondSafe x -> 0 <= q ->
  Double.beyondSafe (Double.add x (Double.Int q)).
Proof.
  intros [-> | [z [-> Hz]]] Hq.
  - now left.
  - simpl. apply round_beyondSafe. lia.
Qed.

Lemma beyondSafe_gtb (x : Double.t) (n : Z) :
  Double.beyondSafe x -> n <= Double.MAX_SAFE_INTEGER ->
  Double.gtb x (Double.Int n) = true.
Proof.
  intros [-> | [z [-> Hz]]] Hn; [ reflexivity | ].
  simpl. apply Z.gtb_lt. lia.
Qed.

Lemma sum_abs_nonneg {A} (f : A -> Z) (l : list A) :
  0 <= Spec.sum (map (fun x => Z.abs (f x)) l).
Proof.
  induction l as [ | x l IH]; cbn [map Spec.sum]; lia.
Qed.

(** A [reduce] that adds integers is exact while the magnitudes at hand
    add up to a safe integer. *)
Lemma fold_add_exact {A} (f : A -> Z) (l : list A) (a : Z) :
  Z.abs a + Spec.sum (map (fun x => Z.abs (f x)) l)
  <= Double.MAX_SAFE_INTEGER ->
  fold_left (fun total x => Double.add total (Double.Int (f x))) l
    (Double.Int a)
  = Double.Int (a + Spec.sum (map f l)).
Proof.
  revert a. induction l as [ | x l IH]; intros a; cbn [map Spec.sum fold_left].
  - intros _. f_equal. lia.
  - intros H. pose proof (sum_abs_nonneg f l).
    cbn [Double.add]. rewrite round_safe by lia.
    rewrite IH by lia. f_equal. lia.
Qed.

(** ** The three private methods against the specification's sums *)

Lemma sum_filter_notInfant (rs : list TicketTypeRequest.t) :
  Spec.sum (map getNoOfTickets (filter Spec.notInfant rs)) =
  Spec.sum
    (map (fun r => if negb (TicketType_eqb (getTicketType r) INFANT)
                   then getNoOfTickets r else 0) rs).
Proof.
  induction rs as [ | r rs IH]; simpl; [ reflexivity | ].
  unfold Spec.notInfant at 1.
  destruct (getTicketType r); simpl; rewrite IH; reflexivity.
Qed.

Lemma hasAdultEntry_cons (r : TicketTypeRequest.t)
    (rs : list TicketTypeRequest.t) :
  Tally.hasAdultEntry (r :: rs)
  = TicketType_eqb (getTicketType r) ADULT || Tally.hasAdultEntry rs.
Proof. reflexivity. Qed.


(** The second search of validation never decides: once an ADULT entry is
    found it finds nothing, and without one the result is false already. *)
Lemma second_search_is_idle (rs : list TicketTypeRequest.t) :
  Tally.hasAdultEntry rs
  && negb (existsb
             (fun request =>
                (TicketType_eqb (getTicketType request) CHILD
                 || TicketType_eqb (getTicketType request) INFANT)
                && negb (Tally.hasAdultEntry rs)) rs)
  = Tally.hasAdultEntry rs.
Proof.
  destruct (Tally.hasAdultEntry rs); simpl; [ | reflexivity ].
  replace (existsb _ rs) with false; [ reflexivity | ].
  symmetry. apply not_true_is_false. rewrite existsb_exists.
  intros [r [_ Hr]]. rewrite andb_false_r in Hr. discriminate.
Qed.

(** Validation is the comparison of the running total with the cap, then
    the search for an ADULT entry. *)
Lemma isValidPurchaseRequest_cap_adult (this : TicketService.t)
    (rs : list TicketTypeRequest.t) :
  isValidPurchaseRequest this rs =
  if Double.gtb
       (fold_left
          (fun total request =>
             Double.add total (Double.Int (getNoOfTickets request)))
          rs (Double.Int 0))
       (Double.Int (maxTicketsPerPurchase this))
  then false
  else Tally.hasAdultEntry rs.
Proof.
  unfold isValidPurchaseRequest.
  destruct (Double.gtb _ _); [ reflexivity | ].
  apply second_search_is_idle.
Qed.


Lemma withinExactRange_quantities (rs : list TicketTypeRequest.t) :
  Tally.withinExactRange rs ->
  Spec.sum (map (fun r => Z.abs (getNoOfTickets r)) rs)
  <= Double.MAX_SAFE_INTEGER.
Proof.
  unfold Tally.withinExactRange. intros H.
  pose proof (sum_abs_nonneg getNoOfTickets rs). lia.
Qed.

(** Within the exact range the running total of validation is the sum of
    the quantities. *)
Lemma totalQuantity_exact (rs : list TicketTypeRequest.t) :
  Tally.withinExactRange rs ->
  fold_left
    (fun total request =>
       Double.add total (Double.Int (getNoOfTickets request)))
    rs (Double.Int 0)
  = Double.Int (Spec.totalQuantity rs).
Proof.
  intros H. apply withinExactRange_quantities in H.
  rewrite (fold_add_exact getNoOfTickets) by (simpl; lia).
  reflexivity.
Qed.

Section Service.

Variable payment : PaymentService.
Variable reservation : ReservationService.

Local Abbreviation service :=
  (TicketService.constructor payment reservation).

Lemma amount_fold_exact (rs : list TicketTypeRequest.t) (a : Z) :
  Z.abs a + 20 * Spec.sum (map (fun r => Z.abs (getNoOfTickets r)) rs)
  <= Double.MAX_SAFE_INTEGER ->
  fold_left
    (fun total request =>
       let ticketType := getTicketType request in
       let ticketQuantity := getNoOfTickets request in
       Double.add total
         (Double.mul (Double.Int (ticketPrices service ticketType))
            (Double.Int ticketQuantity)))
    rs (Double.Int a)
  = Double.Int (a + Spec.totalCharged rs).
Proof.
  unfold Spec.totalCharged.
  revert a. induction rs as [ | [ty q] rs IH]; intros a;
    cbn [map Spec.sum fold_left getNoOfTickets getTicketType type
           noOfTickets].
  - intros _. f_equal. lia.
  - intros H.
    pose proof (sum_abs_nonneg getNoOfTickets rs) as Hnn.
    cbn [map Spec.sum getNoOfTickets noOfTickets] in Hnn.
    assert (Hp : Z.abs (ticketPrices service ty * q) <= 20 * Z.abs q).
    { assert (Hb : 0 <= ticketPrices service ty <= 20)
        by (destruct ty; simpl; lia).
      rewrite Z.abs_mul, (Z.abs_eq (ticketPrices service ty)) by lia.
      pose proof (Z.abs_nonneg q). nia. }
    assert (Hs : ticketPrices service ty = Spec.unitPrice ty)
      by (destruct ty; reflexivity).
    cbn [Double.mul Double.add].
    rewrite (round_safe (ticketPrices service ty * q)) by lia.
    cbn [Double.add]. rewrite round_safe by lia.
    rewrite IH by lia. f_equal. rewrite Hs. lia.
Qed.

Lemma calculateTotalAmount_sum (rs : list TicketTypeRequest.t) :
  Tally.withinExactRange rs ->
  calculateTotalAmount service rs = Double.Int (Spec.totalCharged rs).
Proof.
  intros H. unfold calculateTotalAmount.
  rewrite amount_fold_exact; [ reflexivity | exact H ].
Qed.

Lemma calculateNumSeatsToReserve_sum (rs : list TicketTypeRequest.t) :
  Tally.withinExactRange rs ->
  calculateNumSeatsToReserve service rs
  = Double.Int (Spec.seatsOccupied rs).
Proof.
  intros H. apply withinExactRange_quantities in H.
  unfold calculateNumSeatsToReserve, Spec.seatsOccupied.
  rewrite (fold_add_exact
             (fun r => if negb (TicketType_eqb (getTicketType r) INFANT)
                       then getNoOfTickets r else 0)).
  - now rewrite sum_filter_notInfant.
  - assert (Hle : Spec.sum
                    (map (fun r =>
                            Z.abs (if negb (TicketType_eqb
                                              (getTicketType r) INFANT)
                                   then getNoOfTickets r else 0)) rs)
                  <= Spec.sum (map (fun r => Z.abs (getNoOfTickets r)) rs)).
    { clear H. induction rs as [ | r rs' IH]; cbn [map Spec.sum]; [ lia | ].
      destruct (negb _); lia. }
    simpl Z.abs. lia.
Qed.


Lemma isValidPurchaseRequest_20 (rs : list TicketTypeRequest.t) :
  Tally.withinExactRange rs ->
  isValidPurchaseRequest service rs
  = (Spec.totalQuantity rs <=? 20) && Tally.hasAdultEntry rs.
Proof.
  intros H. rewrite isValidPurchaseRequest_cap_adult, totalQuantity_exact
    by exact H.
  cbn [maxTicketsPerPurchase TicketService.constructor Double.gtb].
  rewrite Z.gtb_ltb, Z.ltb_antisym.
  now destruct (Spec.totalQuantity rs <=? 20).
Qed.

End Service.

(** ** The paths through [purchaseTickets] *)

Section Paths.

Variable this : TicketService.t.
Variable accountId : Z.
Variable rs : list TicketTypeRequest.t.

Local Abbreviation totalAmount := (calculateTotalAmount this rs).
Local Abbreviation seats := (calculateNumSeatsToReserve this rs).
Local Abbreviation out := (purchaseTickets this accountId rs).

Lemma path_bad_account :
  accountId <= 0 ->
  out = ([ConsoleLog "Please provide a valid Account ID"], Stmt.Return 0).
Proof.
  intros H. run_body.
  destruct (Z.leb_spec accountId 0); [ reflexivity | lia ].
Qed.

Lemma path_invalid_request :
  accountId > 0 ->
  isValidPurchaseRequest this rs = false ->
  out = ([ConsoleLog "Not a valid Ticket Request. Please check the rules"],
         Stmt.Return 0).
Proof.
  intros H Hv. run_body. rewrite Hv.
  destruct (Z.leb_spec accountId 0); [ lia | reflexivity ].
Qed.

Lemma path_payment_throws (e : Js.Error) :
  accountId > 0 ->
  isValidPurchaseRequest this rs = true ->
  makePayment (paymentService this) accountId totalAmount = Js.Throws e ->
  out = ([MakePayment accountId totalAmount; ConsoleError (caughtLine e)],
         Stmt.Return 0).
Proof.
  intros H Hv Hp. run_body. rewrite Hv, Hp.
  destruct (Z.leb_spec accountId 0); [ lia | ]. unfold caughtLine. simpl.
  now destruct (Js.instanceofInvalidPurchaseException e).
Qed.

(** A thrown [null] or [undefined] is caught, but reading its [message]
    in the handler throws, and that TypeError leaves the method. *)
Lemma path_payment_throws_nullish :
  accountId > 0 ->
  isValidPurchaseRequest this rs = true ->
  makePayment (paymentService this) accountId totalAmount
  = Js.ThrowsNullish ->
  out = ([MakePayment accountId totalAmount],
         Stmt.Throw (Js.AnError Js.nullishTypeError)).
Proof.
  intros H Hv Hp. run_body. rewrite Hv, Hp.
  destruct (Z.leb_spec accountId 0); [ lia | reflexivity ].
Qed.

Lemma path_payment_fails (v : Js.Value) :
  accountId > 0 ->
  isValidPurchaseRequest this rs = true ->
  makePayment (paymentService this) accountId totalAmount = Js.Gives v ->
  Js.ToBoolean v = false ->
  out = ([MakePayment accountId totalAmount;
          ConsoleLog "Payment failed. Ticket purchase unsuccessful."],
         Stmt.Return 0).
Proof.
  intros H Hv Hp Hb. run_body. rewrite Hv, Hp, Hb.
  destruct (Z.leb_spec accountId 0); [ lia | reflexivity ].
Qed.

Lemma path_reserved (v w : Js.Value) :
  accountId > 0 ->
  isValidPurchaseRequest this rs = true ->
  makePayment (paymentService this) accountId totalAmount = Js.Gives v ->
  Js.ToBoolean v = true ->
  reserveSeats (reservationService this) accountId seats = Js.Gives w ->
  out = ([MakePayment accountId totalAmount; ReserveSeats accountId seats;
          ConsoleLog "Ticket purchase successful!"],
         Stmt.Return seats).
Proof.
  intros H Hv Hp Hb Hr. run_body. rewrite Hv, Hp, Hb, Hr.
  destruct (Z.leb_spec accountId 0); [ lia | reflexivity ].
Qed.

(** The assignment to [numSeatsToReserve] precedes the call to
    [reserveSeats]: when that call throws an error, the handler runs and
    the method still returns the seat count. *)
Lemma path_reservation_throws (v : Js.Value) (e : Js.Error) :
  accountId > 0 ->
  isValidPurchaseRequest this rs = true ->
  makePayment (paymentService this) accountId totalAmount = Js.Gives v ->
  Js.ToBoolean v = true ->
  reserveSeats (reservationService this) accountId seats = Js.Throws e ->
  out = ([MakePayment accountId totalAmount; ReserveSeats accountId seats;
          ConsoleError (caughtLine e)],
         Stmt.Return seats).
Proof.
  intros H Hv Hp Hb Hr. run_body. rewrite Hv, Hp, Hb, Hr.
  destruct (Z.leb_spec accountId 0); [ lia | ]. unfold caughtLine. simpl.
  now destruct (Js.instanceofInvalidPurchaseException e).
Qed.

Lemma path_reservation_throws_nullish (v : Js.Value) :
  accountId > 0 ->
  isValidPurchaseRequest this rs = true ->
  makePayment (paymentService this) accountId totalAmount = Js.Gives v ->
  Js.ToBoolean v = true ->
  reserveSeats (reservationService this) accountId seats
  = Js.ThrowsNullish ->
  out = ([MakePayment accountId totalAmount; ReserveSeats accountId seats],
         Stmt.Throw (Js.AnError Js.nullishTypeError)).
Proof.
  intros H Hv Hp Hb Hr. run_body. rewrite Hv, Hp, Hb, Hr.
  destruct (Z.leb_spec accountId 0); [ lia | reflexivity ].
Qed.

(** The eight ways, each with its condition and its whole outcome. *)
Lemma purchaseTickets_table :
  (accountId <= 0
   /\ out = ([ConsoleLog "Please provide a valid Account ID"],
             Stmt.Return 0))
  \/ (accountId > 0 /\ isValidPurchaseRequest this rs = false
      /\ out = ([ConsoleLog
                   "Not a valid Ticket Request. Please check the rules"],
                Stmt.Return 0))
  \/ (accountId > 0 /\ isValidPurchaseRequest this rs = true
      /\ exists e,
           makePayment (paymentService this) accountId totalAmount
           = Js.Throws e
           /\ out = ([MakePayment accountId totalAmount;
                      ConsoleError (caughtLine e)], Stmt.Return 0))
  \/ (accountId > 0 /\ isValidPurchaseRequest this rs = true
      /\ makePayment (paymentService this) accountId totalAmount
         = Js.ThrowsNullish
      /\ out = ([MakePayment accountId totalAmount],
                Stmt.Throw (Js.AnError Js.nullishTypeError)))
  \/ (accountId > 0 /\ isValidPurchaseRequest this rs = true
      /\ exists v,
           makePayment (paymentService this) accountId totalAmount
           = Js.Gives v
           /\ Js.ToBoolean v = false
           /\ out = ([MakePayment accountId totalAmount;
                      ConsoleLog
                        "Payment failed. Ticket purchase unsuccessful."],
                     Stmt.Return 0))
  \/ (accountId > 0 /\ isValidPurchaseRequest this rs = true
      /\ exists v w,
           makePayment (paymentService this) accountId totalAmount
           = Js.Gives v
           /\ Js.ToBoolean v = true
           /\ reserveSeats (reservationService this) accountId seats
              = Js.Gives w
           /\ out = ([MakePayment accountId totalAmount;
                      ReserveSeats accountId seats;
                      ConsoleLog "Ticket purchase successful!"],
                     Stmt.Return seats))
  \/ (accountId > 0 /\ isValidPurchaseRequest this rs = true
      /\ exists v e,
           makePayment (paymentService this) accountId totalAmount
           = Js.Gives v
           /\ Js.ToBoolean v = true
           /\ reserveSeats (reservationService this) accountId seats
              = Js.Throws e
           /\ out = ([MakePayment accountId totalAmount;
                      ReserveSeats accountId seats;
                      ConsoleError (caughtLine e)],
                     Stmt.Return seats))
  \/ (accountId > 0 /\ isValidPurchaseRequest this rs = true
      /\ exists v,
           makePayment (paymentService this) accountId totalAmount
           = Js.Gives v
           /\ Js.ToBoolean v = true
           /\ reserveSeats (reservationService this) accountId seats
              = Js.ThrowsNullish
           /\ out = ([MakePayment accountId totalAmount;
                      ReserveSeats accountId seats],
                     Stmt.Throw (Js.AnError Js.nullishTypeError))).
Proof.
  destruct (Z.leb_spec accountId 0) as [Hle | Hgt].
  { left. split; [ exact Hle | now apply path_bad_account ]. }
  assert (H : accountId > 0) by lia. right.
  destruct (isValidPurchaseRequest this rs) eqn:Hv.
  2:{ left. repeat split; [ exact H | now apply path_invalid_request ]. }
  right.
  destruct (makePayment (paymentService this) accountId totalAmount)
    as [v | e | ] eqn:Hp.
  2:{ left. repeat split; [ exact H | ]. exists e.
      split; [ reflexivity | now apply path_payment_throws ]. }
  2:{ right. left. repeat split;
        [ exact H | now apply path_payment_throws_nullish ]. }
  right. right.
  destruct (Js.ToBoolean v) eqn:Hb.
  2:{ left. repeat split; [ exact H | ]. exists v.
      repeat split; [ exact Hb | now apply (path_payment_fails v) ]. }
  right.
  destruct (reserveSeats (reservationService this) accountId seats)
    as [w | e | ] eqn:Hr.
  - left. repeat split; [ exact H | ]. exists v, w.
    repeat split; [ exact Hb | now apply (path_reserved v w) ].
  - right. left. repeat split; [ exact H | ]. exists v, e.
    repeat split; [ exact Hb | now apply (path_reservation_throws v) ].
  - right. right. repeat split; [ exact H | ]. exists v.
    repeat split; [ exact Hb | now apply (path_reservation_throws_nullish v) ].
Qed.

(** A request that passes validation is charged once, with the computed
    amount, whatever [makePayment] then answers. *)
Lemma valid_request_is_charged :
  accountId > 0 ->
  isValidPurchaseRequest this rs = true ->
  paymentCalls (fst out) = [(accountId, totalAmount)].
Proof.
  intros H Hv0.
  each_way purchaseTickets_table accountId; try reflexivity; try lia.
  congruence.
Qed.

(** When payment succeeds and [reserveSeats] does not throw [null] or
    [undefined], the seat count is returned and each collaborator has been
    called once. *)
Lemma path_paid (v : Js.Value) :
  accountId > 0 ->
  isValidPurchaseRequest this rs = true ->
  makePayment (paymentService this) accountId totalAmount = Js.Gives v ->
  Js.ToBoolean v = true ->
  reserveSeats (reservationService this) accountId seats
  <> Js.ThrowsNullish ->
  snd out = Stmt.Return seats
  /\ paymentCalls (fst out) = [(accountId, totalAmount)]
  /\ reservationCalls (fst out) = [(accountId, seats)].
Proof.
  intros H Hv Hp Hb Hr.
  destruct (reserveSeats (reservationService this) accountId seats)
    as [w | e | ] eqn:Hr'; [ | | contradiction ].
  - rewrite (path_reserved v w H Hv Hp Hb Hr'). now repeat split.
  - rewrite (path_reservation_throws v e H Hv Hp Hb Hr'). now repeat split.
Qed.

End Paths.

(** ** What the trace of a call can contain *)

Lemma reservationCalls_app (tr1 tr2 : list Event) :
  reservationCalls (tr1 ++ tr2) = reservationCalls tr1 ++ reservationCalls tr2.
Proof. unfold reservationCalls. now rewrite flat_map_app. Qed.

Lemma no_reservation_no_split (tr pre post : list Event) (a : Z)
    (n : Double.t) :
  reservationCalls tr = [] -> tr <> pre ++ ReserveSeats a n :: post.
Proof.
  intros Hnone ->. rewrite reservationCalls_app in Hnone. simpl in Hnone.
  now destruct (reservationCalls pre).
Qed.

Section Order.

Variable this : TicketService.t.
Variable accountId : Z.
Variable rs : list TicketTypeRequest.t.

(** [reserveSeats] is called only after a call of [makePayment] for the
    same account that gave a truthy value. *)
Lemma reservation_follows_payment (pre post : list Event) (a : Z)
    (n : Double.t) :
  fst (purchaseTickets this accountId rs) = pre ++ ReserveSeats a n :: post ->
  exists amount v,
    In (MakePayment a amount) pre
    /\ makePayment (paymentService this) a amount = Js.Gives v
    /\ Js.ToBoolean v = true.
Proof.
  each_way (purchaseTickets_table this accountId rs) accountId;
    cbn [fst]; intros Hsplit;
    try (now apply no_reservation_no_split in Hsplit).
  all: destruct pre as [ | e1 pre]; [ discriminate | ].
  all: injection Hsplit as <- Hsplit.
  all: destruct pre as [ | e2 pre];
    [ injection Hsplit as <- <- _;
      exists (calculateTotalAmount this rs); eexists;
      split; [ now left | split; [ eassumption | assumption ] ]
    | injection Hsplit as _ Hsplit; exfalso ].
  all: destruct pre; try discriminate Hsplit.
  all: injection Hsplit as _ Hsplit; now destruct pre.
Qed.

End Order.

(** * The claims *)

(** ** TicketTypeRequest *)

(** C3, as it is stated, fails at [('ADULT', -5)]: -5 is not a non-negative
    whole number, yet the constructor raises nothing and gives the object
    holding ADULT and -5. *)
Lemma negative_quantity_is_constructed :
  let type := Js.Str "ADULT" in
  let quantity := Js.Num (Js.Integer (-5)) in
  ~ Spec.nonNegativeWholeNumber quantity
  /\ TicketTypeRequest.constructor type quantity
     = Js.Gives (TicketTypeRequest.mk ADULT (-5))
  /\ ~ ((exists e, TicketTypeRequest.constructor type quantity = Js.Throws e)
        <-> (~ Spec.recognizedType type
             \/ ~ Spec.nonNegativeWholeNumber quantity)).
Proof.
  assert (Hneg : ~ Spec.nonNegativeWholeNumber (Js.Num (Js.Integer (-5)))).
  { intros [z [[= <-] Hz]]. lia. }
  cbv zeta. split; [ exact Hneg | ]. split; [ reflexivity | ].
  intros [_ Hthrow]. destruct (Hthrow (or_intror Hneg)) as [e He].
  discriminate He.
Qed.

(** C3, amended: constructing a TicketTypeRequest raises an error exactly
    when the type is not one of ADULT, CHILD, INFANT or the quantity is not
    a whole number (an integer of either sign); the error is a TypeError,
    and a construction that raises gives no object. *)
Theorem constructor_throws_iff (type quantity : Js.Value) :
  ((exists e, TicketTypeRequest.constructor type quantity = Js.Throws e) <->
   (~ Spec.recognizedType type \/ ~ Spec.wholeNumber quantity))
  /\ (forall e, TicketTypeRequest.constructor type quantity = Js.Throws e ->
                Js.class e = Js.TypeError)
  /\ (forall e r, TicketTypeRequest.constructor type quantity = Js.Throws e ->
                  TicketTypeRequest.constructor type quantity <> Js.Gives r).
Proof.
  split; [ | split ].
  - rewrite <- includes_Type, <- isInteger_whole. split.
    + intros [e He].
      destruct (Js.includes Type_ type) eqn:Hty; [ | left; discriminate ].
      destruct (Js.isInteger quantity) eqn:Hq; [ | right; discriminate ].
      exfalso.
      apply includes_Type in Hty. apply isInteger_whole in Hq.
      destruct Hq as [z ->].
      assert (Hgives : exists ty, type = Js.Str (TicketType_name ty)).
      { destruct Hty as [-> | [-> | ->]];
          [ now exists ADULT | now exists CHILD | now exists INFANT ]. }
      destruct Hgives as [ty ->].
      assert (Hr : TicketTypeRequest.constructor (Js.Str (TicketType_name ty))
                     (Js.Num (Js.Integer z))
                   = Js.Gives (TicketTypeRequest.mk ty z))
        by now apply constructor_gives.
      congruence.
    + unfold TicketTypeRequest.constructor. intros [Hty | Hq].
      * apply not_true_is_false in Hty. rewrite Hty. simpl. now eexists.
      * apply not_true_is_false in Hq. rewrite Hq.
        destruct (Js.includes Type_ type); simpl; now eexists.
  - intros e. apply constructor_throws.
  - intros e r He. rewrite He. discriminate.
Qed.

(** C9: when construction succeeds, [getTicketType] gives back exactly the
    type argument and [getNoOfTickets] exactly the quantity argument. The
    object is a value of two fields that no operation assigns: what the two
    accessors give is a function of the object alone. *)
Theorem accessors_give_constructor_arguments
    (type quantity : Js.Value) (r : TicketTypeRequest.t) :
  TicketTypeRequest.constructor type quantity = Js.Gives r ->
  Js.Str (TicketType_name (getTicketType r)) = type
  /\ Js.Num (Js.Integer (getNoOfTickets r)) = quantity.
Proof.
  intros H. apply constructor_gives in H. destruct H as [-> ->].
  now split.
Qed.

Lemma accessors_give_constructor_arguments_child_3 :
  TicketTypeRequest.constructor (Js.Str "CHILD") (Js.Num (Js.Integer 3))
  = Js.Gives (TicketTypeRequest.mk CHILD 3)
  /\ Js.Str (TicketType_name (getTicketType (TicketTypeRequest.mk CHILD 3)))
     = Js.Str "CHILD"
  /\ Js.Num (Js.Integer (getNoOfTickets (TicketTypeRequest.mk CHILD 3)))
     = Js.Num (Js.Integer 3).
Proof.
  split; [ reflexivity | ].
  apply (accessors_give_constructor_arguments
           (Js.Str "CHILD") (Js.Num (Js.Integer 3))
           (TicketTypeRequest.mk CHILD 3)).
  reflexivity.
Defined.

(** ** TicketService *)




(** C2 does not hold of the code at [(ADULT, 0), (CHILD, 1)] with the
    collaborators of the test suite: the sequence has a CHILD entry and no
    ADULT entry of quantity > 0, yet [makePayment] is called with 10,
    [reserveSeats] with 1, and 1 is returned. The check for an adult looks
    at the type of the entries and not at their quantity. *)
Theorem adult_of_quantity_zero_admits_child :
  let rs := [TicketTypeRequest.mk ADULT 0; TicketTypeRequest.mk CHILD 1] in
  let out :=
    purchaseTickets
      (TicketService.constructor Mock.paymentServiceMock
         Mock.reservationServiceMock) 123 rs in
  123 > 0
  /\ (Spec.contains CHILD rs \/ Spec.contains INFANT rs)
  /\ ~ Spec.containsPositiveAdult rs
  /\ out = ([MakePayment 123 10; ReserveSeats 123 1;
             ConsoleLog "Ticket purchase successful!"], Stmt.Return 1)
  /\ ~ rejected out.
Proof.
  cbv zeta. split; [ lia | ]. split; [ | split; [ | split ] ].
  - left. exists (TicketTypeRequest.mk CHILD 1). split; [ | reflexivity ].
    right. now left.
  - intros [r [Hin [Hty Hq]]].
    destruct Hin as [<- | [<- | []]]; simpl in *; [ lia | discriminate ].
  - reflexivity.
  - intros [Hret _]. discriminate Hret.
Qed.





(** C6: for accountId <= 0 and any sequence, [purchaseTickets] returns 0
    and calls neither collaborator. *)
Theorem bad_account_is_rejected
    (payment : PaymentService) (reservation : ReservationService)
    (accountId : Z) (rs : list TicketTypeRequest.t) :
  accountId <= 0 ->
  rejected
    (purchaseTickets (TicketService.constructor payment reservation)
       accountId rs).
Proof.
  intros H. rewrite path_bad_account by exact H. now repeat split.
Qed.

Lemma bad_account_is_rejected_account_0 :
  rejected
    (purchaseTickets
       (TicketService.constructor Mock.paymentServiceMock
          Mock.reservationServiceMock)
       0 [TicketTypeRequest.mk ADULT 1]).
Proof.
  apply (bad_account_is_rejected Mock.paymentServiceMock
           Mock.reservationServiceMock 0 [TicketTypeRequest.mk ADULT 1]).
  lia.
Defined.

(** C7: for accountId > 0 and a sequence that passes validation, when
    [makePayment] reports failure [reserveSeats] is not called and 0 is
    returned; and in every call of [purchaseTickets], a call of
    [reserveSeats] comes after a call of [makePayment] that succeeded. The
    amount [makePayment] is asked for is the one the service calculates;
    within the exact range it is the sum of the prices. *)
Theorem payment_failure_reserves_nothing
    (payment : PaymentService) (reservation : ReservationService)
    (accountId : Z) (rs : list TicketTypeRequest.t) :
  accountId > 0 ->
  isValidPurchaseRequest (TicketService.constructor payment reservation) rs
  = true ->
  let service := TicketService.constructor payment reservation in
  let out := purchaseTickets service accountId rs in
  (Spec.paymentFails payment accountId (calculateTotalAmount service rs) ->
   snd out = Stmt.Return 0 /\ reservationCalls (fst out) = [])
  /\ (Tally.withinExactRange rs ->
      Spec.paymentFails payment accountId (Spec.totalCharged rs) ->
      snd out = Stmt.Return 0 /\ reservationCalls (fst out) = [])
  /\ (forall pre post a n,
        fst out = pre ++ ReserveSeats a n :: post ->
        exists amount,
          In (MakePayment a amount) pre
          /\ Spec.paymentSucceeds payment a amount).
Proof.
  intros H Hv service out.
  assert (Hfail : Spec.paymentFails payment accountId
                    (calculateTotalAmount service rs) ->
                  snd out = Stmt.Return 0 /\ reservationCalls (fst out) = []).
  { intros [v [Hp Hb]]. unfold out.
    rewrite (path_payment_fails service accountId rs v H Hv Hp Hb).
    now split. }
  split; [ exact Hfail | ]. split.
  - intros Hx Hp. apply Hfail. unfold service.
    now rewrite calculateTotalAmount_sum.
  - intros pre post a n Hsplit.
    destruct (reservation_follows_payment _ accountId rs pre post a n Hsplit)
      as [amount [v [Hin [Hp Hb]]]].
    exists amount. split; [ exact Hin | now exists v ].
Qed.

Lemma payment_failure_reserves_nothing_two_adults :
  let out :=
    purchaseTickets
      (TicketService.constructor Mock.paymentServiceDeclines
         Mock.reservationServiceFalse)
      123 [TicketTypeRequest.mk ADULT 2] in
  snd out = Stmt.Return 0 /\ reservationCalls (fst out) = [].
Proof.
  refine (proj1 (payment_failure_reserves_nothing
                   Mock.paymentServiceDeclines Mock.reservationServiceFalse
                   123 [TicketTypeRequest.mk ADULT 2] _ _) _).
  - lia.
  - reflexivity.
  - exists (Js.Boolean false). split; reflexivity.
Defined.




(** C10: the single entry [(ADULT, -5)] is constructed, and with any
    accountId > 0 (here 123) it passes validation: [makePayment] is called
    with a negative amount (-100) and, when payment succeeds (and
    [reserveSeats] does not throw [null] or [undefined]), a negative seat
    count (-5) is returned. *)
Theorem negative_adult_quantity_is_purchased :
  exists (accountId : Z) (r : TicketTypeRequest.t),
    accountId > 0
    /\ TicketTypeRequest.constructor (Js.Str "ADULT")
         (Js.Num (Js.Integer (-5))) = Js.Gives r
    /\ getTicketType r = ADULT
    /\ getNoOfTickets r < 0
    /\ forall (payment : PaymentService) (reservation : ReservationService),
         let service := TicketService.constructor payment reservation in
         isValidPurchaseRequest service [r] = true
         /\ (exists amount,
               amount < 0
               /\ paymentCalls (fst (purchaseTickets service accountId [r]))
                  = [(accountId, Double.Int amount)])
         /\ (Spec.paymentSucceeds payment accountId (Spec.totalCharged [r]) ->
             reserveSeats reservation accountId (getNoOfTickets r)
             <> Js.ThrowsNullish ->
             exists n,
               n < 0
               /\ snd (purchaseTickets service accountId [r])
                  = Stmt.Return n).
Proof.
  exists 123, (TicketTypeRequest.mk ADULT (-5)).
  split; [ lia | ]. split; [ reflexivity | ]. split; [ reflexivity | ].
  split; [ simpl; lia | ].
  intros payment reservation service.
  assert (Hv : isValidPurchaseRequest service
                 [TicketTypeRequest.mk ADULT (-5)] = true) by reflexivity.
  split; [ exact Hv | ]. split.
  - exists (-100). split; [ lia | ].
    now rewrite valid_request_is_charged by (lia || assumption).
  - intros [v [Hp Hb]] Hr.
    exists (-5). split; [ lia | ].
    assert (H : 123 > 0) by lia.
    now destruct (path_paid service 123 [TicketTypeRequest.mk ADULT (-5)] v
                    H Hv Hp Hb Hr) as [-> _].
Qed.

(** C4 does not hold of the code when it is [reserveSeats] that throws:
    with two ADULT tickets, a payment that succeeds and a reservation that
    throws, the error is caught and reported, and [purchaseTickets] returns
    2, the seat count assigned before the call, not 0. *)
Theorem reservation_failure_returns_seat_count :
  purchaseTickets
    (TicketService.constructor Mock.paymentServiceMock
       Mock.reservationServiceThrows)
    123 [TicketTypeRequest.mk ADULT 2]
  = ([MakePayment 123 40; ReserveSeats 123 2;
      ConsoleError "An unexpected error occurred: no seats"],
     Stmt.Return 2).
Proof. reflexivity. Qed.

(** * Further properties of the code *)

(** ** What [purchaseTickets] reads of a request sequence *)

(** [purchaseTickets] looks at the sequence through its three private
    methods only. *)
Lemma purchaseTickets_ext (this : TicketService.t) (accountId : Z)
    (rs rs' : list TicketTypeRequest.t) :
  isValidPurchaseRequest this rs = isValidPurchaseRequest this rs' ->
  calculateTotalAmount this rs = calculateTotalAmount this rs' ->
  calculateNumSeatsToReserve this rs = calculateNumSeatsToReserve this rs' ->
  purchaseTickets this accountId rs = purchaseTickets this accountId rs'.
Proof.
  intros Hv Ha Hs. run_body. now rewrite Hv, Ha, Hs.
Qed.

Lemma sum_map_Permutation {A} (f : A -> Z) (l l' : list A) :
  Permutation l l' -> Spec.sum (map f l) = Spec.sum (map f l').
Proof.
  induction 1 as [ | x l l' _ IH | x y l | l l' l'' _ IH1 _ IH2 ]; simpl.
  - reflexivity.
  - now rewrite IH.
  - lia.
  - now rewrite IH1.
Qed.

Lemma existsb_Permutation {A} (f : A -> bool) (l l' : list A) :
  Permutation l l' -> existsb f l = existsb f l'.
Proof.
  induction 1 as [ | x l l' _ IH | x y l | l l' l'' _ IH1 _ IH2 ]; simpl.
  - reflexivity.
  - now rewrite IH.
  - now destruct (f x), (f y).
  - now rewrite IH1.
Qed.

(** Two sequences within the exact range with the same total quantity, the
    same amount, the same seats and an ADULT entry in both or in neither
    are the same purchase. *)
Lemma purchaseTickets_same_sums
    (payment : PaymentService) (reservation : ReservationService)
    (accountId : Z) (rs rs' : list TicketTypeRequest.t) :
  Tally.withinExactRange rs -> Tally.withinExactRange rs' ->
  Spec.totalQuantity rs = Spec.totalQuantity rs' ->
  Tally.hasAdultEntry rs = Tally.hasAdultEntry rs' ->
  Spec.totalCharged rs = Spec.totalCharged rs' ->
  Spec.seatsOccupied rs = Spec.seatsOccupied rs' ->
  purchaseTickets (TicketService.constructor payment reservation)
    accountId rs
  = purchaseTickets (TicketService.constructor payment reservation)
      accountId rs'.
Proof.
  intros Hx Hx' Ht Ha Hc Hs. apply purchaseTickets_ext.
  - rewrite !isValidPurchaseRequest_20 by assumption. now rewrite Ht, Ha.
  - rewrite !calculateTotalAmount_sum by assumption. now rewrite Hc.
  - rewrite !calculateNumSeatsToReserve_sum by assumption. now rewrite Hs.
Qed.

Lemma totals_by_type_spec (rs : list TicketTypeRequest.t) :
  Spec.totalCharged rs
  = 20 * Tally.quantityOf ADULT rs + 10 * Tally.quantityOf CHILD rs
  /\ Spec.seatsOccupied rs
     = Tally.quantityOf ADULT rs + Tally.quantityOf CHILD rs
  /\ Spec.totalQuantity rs
     = Tally.quantityOf ADULT rs + Tally.quantityOf CHILD rs
       + Tally.quantityOf INFANT rs.
Proof.
  unfold Spec.totalCharged, Spec.seatsOccupied, Spec.totalQuantity,
    Tally.quantityOf.
  induction rs as [ | [ty q] rs [IH1 [IH2 IH3]]];
    [ now repeat split | ].
  destruct ty;
    cbn [map filter Spec.sum Tally.ofType TicketType_eqb getTicketType
           getNoOfTickets type noOfTickets Spec.unitPrice Spec.notInfant];
    repeat split; lia.
Qed.

Lemma quantityOf_nonneg (ty : TicketType) (rs : list TicketTypeRequest.t) :
  Tally.nonNegative rs -> 0 <= Tally.quantityOf ty rs.
Proof.
  unfold Tally.nonNegative, Tally.quantityOf.
  induction 1 as [ | r rs Hr _ IH]; simpl; [ lia | ].
  destruct (Tally.ofType ty r); simpl; lia.
Qed.

Lemma sum_abs_nonNegative (rs : list TicketTypeRequest.t) :
  Tally.nonNegative rs ->
  Spec.sum (map (fun r => Z.abs (getNoOfTickets r)) rs)
  = Spec.totalQuantity rs.
Proof.
  unfold Tally.nonNegative, Spec.totalQuantity.
  induction 1 as [ | r rs Hr _ IH]; cbn [map Spec.sum]; [ reflexivity | ].
  rewrite IH. lia.
Qed.

(** Among non-negative quantities a running total that has left the safe
    integers never comes back. *)
Lemma running_total_stays_beyondSafe (rs : list TicketTypeRequest.t)
    (x : Double.t) :
  Tally.nonNegative rs -> Double.beyondSafe x ->
  Double.beyondSafe
    (fold_left
       (fun total request =>
          Double.add total (Double.Int (getNoOfTickets request)))
       rs x).
Proof.
  intros Hnn. revert x.
  induction Hnn as [ | r rs Hr _ IH]; intros x Hx; cbn [fold_left].
  - exact Hx.
  - apply IH. now apply beyondSafe_add.
Qed.

(** So a running total of non-negative quantities that ends at 20 or less
    was exact all along. *)
Lemma running_total_nonNegative (rs : list TicketTypeRequest.t) (a : Z) :
  Tally.nonNegative rs -> 0 <= a ->
  Double.gtb
    (fold_left
       (fun total request =>
          Double.add total (Double.Int (getNoOfTickets request)))
       rs (Double.Int a))
    (Double.Int 20) = false ->
  a + Spec.totalQuantity rs <= 20.
Proof.
  unfold Spec.totalQuantity.
  intros Hnn. revert a.
  induction Hnn as [ | r rs Hr Hnn IH]; intros a Ha;
    cbn [fold_left map Spec.sum Double.add].
  - cbn [Double.gtb]. intros Hgt.
    destruct (Z.gtb_spec a 20); [ discriminate | lia ].
  - intros Hgt.
    destruct (Z_le_gt_dec (a + getNoOfTickets r) Double.MAX_SAFE_INTEGER)
      as [Hle | Hbig].
    + rewrite round_safe in Hgt by lia.
      specialize (IH (a + getNoOfTickets r) ltac:(lia) Hgt). lia.
    + exfalso.
      assert (Hb : Double.beyondSafe (Double.round (a + getNoOfTickets r)))
        by (apply round_beyondSafe; lia).
      pose proof (running_total_stays_beyondSafe rs _ Hnn Hb) as Hend.
      apply (beyondSafe_gtb _ 20) in Hend;
        [ congruence | rewrite MAX_SAFE_INTEGER_eq; lia ].
Qed.

Lemma valid_nonNegative_withinExactRange
    (payment : PaymentService) (reservation : ReservationService)
    (rs : list TicketTypeRequest.t) :
  Tally.nonNegative rs ->
  isValidPurchaseRequest (TicketService.constructor payment reservation) rs
  = true ->
  Spec.totalQuantity rs <= 20 /\ Tally.withinExactRange rs.
Proof.
  intros Hnn Hv. rewrite isValidPurchaseRequest_cap_adult in Hv.
  cbn [maxTicketsPerPurchase TicketService.constructor] in Hv.
  destruct (Double.gtb _ _) eqn:Hgt; [ discriminate | ].
  apply (running_total_nonNegative rs 0 Hnn) in Hgt; [ | lia ].
  split; [ lia | ].
  unfold Tally.withinExactRange. rewrite sum_abs_nonNegative by exact Hnn.
  rewrite MAX_SAFE_INTEGER_eq. lia.
Qed.

(** ** Validation and the two calculations *)

(** X1: within the exact range of double arithmetic,
    [#isValidPurchaseRequest] accepts a sequence exactly when its total
    quantity is at most 20 and some entry is ADULT; and whatever the
    quantities, the search for CHILD or INFANT entries never changes the
    answer: a sequence without an ADULT entry is not accepted. *)
Theorem validation_is_cap_and_adult
    (payment : PaymentService) (reservation : ReservationService)
    (rs : list TicketTypeRequest.t) :
  let service := TicketService.constructor payment reservation in
  (Tally.withinExactRange rs ->
   isValidPurchaseRequest service rs
   = (Spec.totalQuantity rs <=? 20) && Tally.hasAdultEntry rs)
  /\ (Tally.hasAdultEntry rs = false ->
      isValidPurchaseRequest service rs = false).
Proof.
  cbv zeta. split.
  - intros Hx.
    rewrite isValidPurchaseRequest_cap_adult, totalQuantity_exact
      by exact Hx.
    cbn [maxTicketsPerPurchase TicketService.constructor Double.gtb].
    rewrite Z.gtb_ltb, Z.ltb_antisym.
    now destruct (Spec.totalQuantity rs <=? 20).
  - intros Hno. rewrite isValidPurchaseRequest_cap_adult, Hno.
    now destruct (Double.gtb _ _).
Qed.

(** X2: within the exact range, the amount and the seat count depend on
    the sequence through the quantities per type only: the amount is 20
    for each ADULT ticket plus 10 for each CHILD ticket, the seat count is
    the ADULT tickets plus the CHILD tickets. *)
Theorem amount_and_seats_by_type
    (payment : PaymentService) (reservation : ReservationService)
    (rs : list TicketTypeRequest.t) :
  Tally.withinExactRange rs ->
  let service := TicketService.constructor payment reservation in
  calculateTotalAmount service rs
  = Double.Int
      (20 * Tally.quantityOf ADULT rs + 10 * Tally.quantityOf CHILD rs)
  /\ calculateNumSeatsToReserve service rs
     = Double.Int (Tally.quantityOf ADULT rs + Tally.quantityOf CHILD rs).
Proof.
  intros Hx. cbv zeta.
  rewrite calculateTotalAmount_sum, calculateNumSeatsToReserve_sum
    by exact Hx.
  destruct (totals_by_type_spec rs) as [-> [-> _]]. now split.
Qed.

Lemma amount_and_seats_by_type_family :
  let service :=
    TicketService.constructor Mock.paymentServiceMock
      Mock.reservationServiceMock in
  let rs :=
    [TicketTypeRequest.mk ADULT 2; TicketTypeRequest.mk CHILD 3;
     TicketTypeRequest.mk INFANT 1] in
  calculateTotalAmount service rs = Double.Int 70
  /\ calculateNumSeatsToReserve service rs = Double.Int 5.
Proof.
  apply (amount_and_seats_by_type Mock.paymentServiceMock
           Mock.reservationServiceMock
           [TicketTypeRequest.mk ADULT 2; TicketTypeRequest.mk CHILD 3;
            TicketTypeRequest.mk INFANT 1]).
  vm_compute. discriminate.
Defined.

(** X3: within the exact range the order of the entries does not matter:
    two sequences that are permutations of each other give the same calls,
    the same console lines and the same result. *)
Theorem purchase_ignores_order
    (payment : PaymentService) (reservation : ReservationService)
    (accountId : Z) (rs rs' : list TicketTypeRequest.t) :
  Permutation rs rs' ->
  Tally.withinExactRange rs ->
  purchaseTickets (TicketService.constructor payment reservation)
    accountId rs
  = purchaseTickets (TicketService.constructor payment reservation)
      accountId rs'.
Proof.
  intros Hp Hx.
  assert (Hx' : Tally.withinExactRange rs').
  { unfold Tally.withinExactRange in *.
    now rewrite <- (sum_map_Permutation _ rs rs' Hp). }
  apply purchaseTickets_same_sums; try assumption.
  - apply (sum_map_Permutation _ rs rs' Hp).
  - apply (existsb_Permutation _ rs rs' Hp).
  - apply (sum_map_Permutation _ rs rs' Hp).
  - unfold Spec.seatsOccupied. rewrite !sum_filter_notInfant.
    apply (sum_map_Permutation _ rs rs' Hp).
Qed.

Lemma purchase_ignores_order_child_first :
  purchaseTickets
    (TicketService.constructor Mock.paymentServiceMock
       Mock.reservationServiceMock)
    123 [TicketTypeRequest.mk CHILD 1; TicketTypeRequest.mk ADULT 2]
  = purchaseTickets
      (TicketService.constructor Mock.paymentServiceMock
         Mock.reservationServiceMock)
      123 [TicketTypeRequest.mk ADULT 2; TicketTypeRequest.mk CHILD 1].
Proof.
  apply (purchase_ignores_order Mock.paymentServiceMock
           Mock.reservationServiceMock 123
           [TicketTypeRequest.mk CHILD 1; TicketTypeRequest.mk ADULT 2]
           [TicketTypeRequest.mk ADULT 2; TicketTypeRequest.mk CHILD 1]).
  - apply perm_swap.
  - vm_compute. discriminate.
Defined.

(** X4: within the exact range two entries of the same type count as one
    entry with the sum of their quantities. *)
Theorem same_type_entries_merge
    (payment : PaymentService) (reservation : ReservationService)
    (accountId : Z) (ty : TicketType) (m n : Z)
    (rs : list TicketTypeRequest.t) :
  Tally.withinExactRange
    (TicketTypeRequest.mk ty m :: TicketTypeRequest.mk ty n :: rs) ->
  purchaseTickets (TicketService.constructor payment reservation) accountId
    (TicketTypeRequest.mk ty m :: TicketTypeRequest.mk ty n :: rs)
  = purchaseTickets (TicketService.constructor payment reservation)
      accountId (TicketTypeRequest.mk ty (m + n) :: rs).
Proof.
  intros Hx.
  assert (Hx' : Tally.withinExactRange
                  (TicketTypeRequest.mk ty (m + n) :: rs)).
  { unfold Tally.withinExactRange in *.
    cbn [map Spec.sum getNoOfTickets noOfTickets] in *. lia. }
  apply purchaseTickets_same_sums; try assumption.
  - unfold Spec.totalQuantity.
    cbn [map Spec.sum getNoOfTickets noOfTickets]. lia.
  - rewrite !hasAdultEntry_cons. cbn [getTicketType type].
    now destruct (TicketType_eqb ty ADULT).
  - unfold Spec.totalCharged.
    cbn [map Spec.sum getNoOfTickets noOfTickets getTicketType type]. lia.
  - unfold Spec.seatsOccupied, Spec.notInfant.
    cbn [filter getTicketType type].
    destruct ty; cbn [map Spec.sum getNoOfTickets noOfTickets]; lia.
Qed.

Lemma same_type_entries_merge_two_and_three :
  purchaseTickets
    (TicketService.constructor Mock.paymentServiceMock
       Mock.reservationServiceMock)
    123 [TicketTypeRequest.mk ADULT 2; TicketTypeRequest.mk ADULT 3]
  = purchaseTickets
      (TicketService.constructor Mock.paymentServiceMock
         Mock.reservationServiceMock)
      123 [TicketTypeRequest.mk ADULT (2 + 3)].
Proof.
  apply (same_type_entries_merge Mock.paymentServiceMock
           Mock.reservationServiceMock 123 ADULT 2 3 []).
  vm_compute. discriminate.
Defined.

(** X5: a CHILD or INFANT entry of quantity 0 changes nothing: the
    purchase goes as it goes without the entry. *)
Theorem zero_child_or_infant_entry_is_ignored
    (this : TicketService.t) (accountId : Z) (ty : TicketType)
    (rs : list TicketTypeRequest.t) :
  ty <> ADULT ->
  purchaseTickets this accountId (TicketTypeRequest.mk ty 0 :: rs)
  = purchaseTickets this accountId rs.
Proof.
  intros Hty. apply purchaseTickets_ext.
  - rewrite !isValidPurchaseRequest_cap_adult, hasAdultEntry_cons.
    cbn [fold_left getNoOfTickets getTicketType type noOfTickets].
    replace (TicketType_eqb ty ADULT) with false
      by (destruct ty; [ contradiction | reflexivity | reflexivity ]).
    reflexivity.
  - unfold calculateTotalAmount.
    cbn [fold_left getNoOfTickets noOfTickets Double.mul].
    now rewrite Z.mul_0_r.
  - unfold calculateNumSeatsToReserve.
    cbn [fold_left getNoOfTickets noOfTickets].
    now destruct (negb _).
Qed.

Lemma zero_child_or_infant_entry_is_ignored_zero_infants :
  purchaseTickets
    (TicketService.constructor Mock.paymentServiceMock
       Mock.reservationServiceMock)
    123 [TicketTypeRequest.mk INFANT 0; TicketTypeRequest.mk ADULT 2]
  = purchaseTickets
      (TicketService.constructor Mock.paymentServiceMock
         Mock.reservationServiceMock)
      123 [TicketTypeRequest.mk ADULT 2].
Proof.
  apply (zero_child_or_infant_entry_is_ignored
           (TicketService.constructor Mock.paymentServiceMock
              Mock.reservationServiceMock)
           123 INFANT [TicketTypeRequest.mk ADULT 2]).
  discriminate.
Defined.

(** X6: INFANT tickets are free and take no seat, but they count toward
    the cap: within the exact range, adding an INFANT entry to a sequence
    that passes validation leaves the whole purchase as it was while the
    total stays within 20, and makes it a rejection once the total exceeds
    20. *)
Theorem infant_entry_is_free_within_cap
    (payment : PaymentService) (reservation : ReservationService)
    (accountId q : Z) (rs : list TicketTypeRequest.t) :
  accountId > 0 ->
  Tally.withinExactRange (TicketTypeRequest.mk INFANT q :: rs) ->
  isValidPurchaseRequest (TicketService.constructor payment reservation) rs
  = true ->
  let service := TicketService.constructor payment reservation in
  let rs' := TicketTypeRequest.mk INFANT q :: rs in
  (Spec.totalQuantity rs + q <= 20 ->
   purchaseTickets service accountId rs'
   = purchaseTickets service accountId rs)
  /\ (Spec.totalQuantity rs + q > 20 ->
      rejected (purchaseTickets service accountId rs')).
Proof.
  intros H Hx' Hv service rs'. subst service.
  assert (Hx : Tally.withinExactRange rs).
  { unfold Tally.withinExactRange in *.
    cbn [map Spec.sum getNoOfTickets noOfTickets] in Hx'. lia. }
  assert (Htotal : Spec.totalQuantity rs' = q + Spec.totalQuantity rs)
    by reflexivity.
  assert (Hadult : Tally.hasAdultEntry rs' = Tally.hasAdultEntry rs)
    by reflexivity.
  pose proof Hv as Hv0.
  rewrite isValidPurchaseRequest_20 in Hv0 by exact Hx.
  apply andb_prop in Hv0. destruct Hv0 as [Hcap Had].
  split.
  - intros Hle. apply purchaseTickets_ext.
    + rewrite Hv.
      rewrite isValidPurchaseRequest_20, Htotal, Hadult, Had by exact Hx'.
      rewrite andb_true_r. apply Z.leb_le. lia.
    + rewrite !calculateTotalAmount_sum by assumption.
      unfold Spec.totalCharged, rs'.
      cbn [map Spec.sum getTicketType type Spec.unitPrice]. f_equal; lia.
    + rewrite !calculateNumSeatsToReserve_sum by assumption.
      reflexivity.
  - intros Hgt.
    rewrite path_invalid_request; [ now repeat split | exact H | ].
    rewrite isValidPurchaseRequest_20, Htotal by exact Hx'.
    replace (q + Spec.totalQuantity rs <=? 20) with false; [ reflexivity | ].
    symmetry. apply Z.leb_gt. lia.
Qed.

Lemma infant_entry_is_free_within_cap_one_infant :
  let service :=
    TicketService.constructor Mock.paymentServiceMock
      Mock.reservationServiceMock in
  purchaseTickets service 123
    [TicketTypeRequest.mk INFANT 1; TicketTypeRequest.mk ADULT 1]
  = purchaseTickets service 123 [TicketTypeRequest.mk ADULT 1]
  /\ rejected
       (purchaseTickets service 123
          [TicketTypeRequest.mk INFANT 20; TicketTypeRequest.mk ADULT 1]).
Proof.
  cbv zeta. split.
  - refine (proj1 (infant_entry_is_free_within_cap Mock.paymentServiceMock
                     Mock.reservationServiceMock 123 1
                     [TicketTypeRequest.mk ADULT 1] _ _ _) _);
      [ lia | vm_compute; discriminate | reflexivity | discriminate ].
  - refine (proj2 (infant_entry_is_free_within_cap Mock.paymentServiceMock
                     Mock.reservationServiceMock 123 20
                     [TicketTypeRequest.mk ADULT 1] _ _ _) _);
      [ lia | vm_compute; discriminate | reflexivity | reflexivity ].
Defined.

(** X7: when no quantity is negative, a sequence that passes validation
    reserves a whole number of seats between 0 and 20 and costs a whole
    amount between 10 and 20 per seat, so at most 400. *)
Theorem valid_nonnegative_request_is_bounded
    (payment : PaymentService) (reservation : ReservationService)
    (rs : list TicketTypeRequest.t) :
  Tally.nonNegative rs ->
  isValidPurchaseRequest (TicketService.constructor payment reservation) rs
  = true ->
  let service := TicketService.constructor payment reservation in
  exists seats amount : Z,
    calculateNumSeatsToReserve service rs = Double.Int seats
    /\ calculateTotalAmount service rs = Double.Int amount
    /\ 0 <= seats <= 20
    /\ 10 * seats <= amount <= 20 * seats
    /\ amount <= 400.
Proof.
  intros Hnn Hv service. subst service.
  destruct (valid_nonNegative_withinExactRange _ _ rs Hnn Hv) as [Hcap Hx].
  exists (Spec.seatsOccupied rs), (Spec.totalCharged rs).
  split; [ now apply calculateNumSeatsToReserve_sum | ].
  split; [ now apply calculateTotalAmount_sum | ].
  destruct (totals_by_type_spec rs) as [-> [-> Ht]]. rewrite Ht in Hcap.
  pose proof (quantityOf_nonneg ADULT rs Hnn).
  pose proof (quantityOf_nonneg CHILD rs Hnn).
  pose proof (quantityOf_nonneg INFANT rs Hnn).
  lia.
Qed.

Lemma valid_nonnegative_request_is_bounded_full_house :
  let service :=
    TicketService.constructor Mock.paymentServiceMock
      Mock.reservationServiceMock in
  let rs := [TicketTypeRequest.mk ADULT 12; TicketTypeRequest.mk CHILD 8] in
  exists seats amount : Z,
    calculateNumSeatsToReserve service rs = Double.Int seats
    /\ calculateTotalAmount service rs = Double.Int amount
    /\ 0 <= seats <= 20
    /\ 10 * seats <= amount <= 20 * seats
    /\ amount <= 400.
Proof.
  apply (valid_nonnegative_request_is_bounded Mock.paymentServiceMock
           Mock.reservationServiceMock
           [TicketTypeRequest.mk ADULT 12; TicketTypeRequest.mk CHILD 8]).
  - repeat constructor; simpl; lia.
  - reflexivity.
Defined.



(** ** The calls and the result of [purchaseTickets], in every case *)

(** X9: for every integer account id, [makePayment] is called exactly
    when accountId > 0 and the sequence passes validation, and then once,
    with the caller's accountId and the calculated amount. *)
Theorem payment_is_requested_iff_valid
    (this : TicketService.t) (accountId : Z)
    (rs : list TicketTypeRequest.t) :
  paymentCalls (fst (purchaseTickets this accountId rs))
  = if (0 <? accountId) && isValidPurchaseRequest this rs
    then [(accountId, calculateTotalAmount this rs)]
    else [].
Proof.
  each_way (purchaseTickets_table this accountId rs) accountId;
    reflexivity.
Qed.


(** X11: when [makePayment] throws an [Error] object, the error is caught:
    0 is returned, [reserveSeats] is not called, and one line goes to
    [console.error], the error's message after 'An unexpected error
    occurred: ' (after 'InvalidPurchaseException: ' for an error of that
    class). *)
Theorem payment_error_is_caught
    (this : TicketService.t) (accountId : Z)
    (rs : list TicketTypeRequest.t) (e : Js.Error) :
  accountId > 0 ->
  isValidPurchaseRequest this rs = true ->
  makePayment (paymentService this) accountId (calculateTotalAmount this rs)
  = Js.Throws e ->
  let out := purchaseTickets this accountId rs in
  snd out = Stmt.Return 0
  /\ reservationCalls (fst out) = []
  /\ logLines (fst out) = []
  /\ errorLines (fst out)
     = [((if Js.instanceofInvalidPurchaseException e
          then "InvalidPurchaseException: "
          else "An unexpected error occurred: ") ++ Js.message e)%string].
Proof.
  intros H Hv Hp. cbv zeta.
  rewrite (path_payment_throws this accountId rs e H Hv Hp).
  now repeat split.
Qed.

Lemma payment_error_is_caught_gateway_down :
  let out :=
    purchaseTickets
      (TicketService.constructor Mock.paymentServiceThrows
         Mock.reservationServiceMock)
      123 [TicketTypeRequest.mk ADULT 2] in
  snd out = Stmt.Return 0
  /\ reservationCalls (fst out) = []
  /\ logLines (fst out) = []
  /\ errorLines (fst out) = ["An unexpected error occurred: gateway down"].
Proof.
  apply (payment_error_is_caught
           (TicketService.constructor Mock.paymentServiceThrows
              Mock.reservationServiceMock)
           123 [TicketTypeRequest.mk ADULT 2]
           (Js.mkError Js.OtherError "gateway down"));
    [ lia | reflexivity | reflexivity ].
Defined.

(** X12: an [InvalidPurchaseException] thrown by either collaborator is
    reported under its own name: the one line on [console.error] is
    'InvalidPurchaseException: ' followed by the message the exception was
    constructed with, and nothing goes to [console.log]. *)
Theorem invalid_purchase_exception_is_reported_by_name
    (this : TicketService.t) (accountId : Z)
    (rs : list TicketTypeRequest.t) (message : string) :
  accountId > 0 ->
  isValidPurchaseRequest this rs = true ->
  let error := InvalidPurchaseException.constructor message in
  let totalAmount := calculateTotalAmount this rs in
  let seats := calculateNumSeatsToReserve this rs in
  makePayment (paymentService this) accountId totalAmount = Js.Throws error
  \/ ((exists v,
         makePayment (paymentService this) accountId totalAmount
         = Js.Gives v /\ Js.ToBoolean v = true)
      /\ reserveSeats (reservationService this) accountId seats
         = Js.Throws error) ->
  errorLines (fst (purchaseTickets this accountId rs))
  = [("InvalidPurchaseException: " ++ message)%string]
  /\ logLines (fst (purchaseTickets this accountId rs)) = [].
Proof.
  intros H Hv error totalAmount seats [Hp | [[v [Hp Hb]] Hr]].
  - rewrite (path_payment_throws this accountId rs error H Hv Hp).
    now split.
  - rewrite (path_reservation_throws this accountId rs v error
               H Hv Hp Hb Hr).
    now split.
Qed.

Lemma invalid_purchase_exception_is_reported_by_name_sold_out :
  let out :=
    purchaseTickets
      (TicketService.constructor Mock.paymentServiceMock
         {| reserveSeats := fun _ _ =>
              Js.Throws (InvalidPurchaseException.constructor "sold out") |})
      123 [TicketTypeRequest.mk ADULT 2] in
  errorLines (fst out) = ["InvalidPurchaseException: sold out"]
  /\ logLines (fst out) = [].
Proof.
  apply (invalid_purchase_exception_is_reported_by_name
           (TicketService.constructor Mock.paymentServiceMock
              {| reserveSeats := fun _ _ =>
                   Js.Throws
                     (InvalidPurchaseException.constructor "sold out") |})
           123 [TicketTypeRequest.mk ADULT 2] "sold out");
    [ lia | reflexivity | ].
  right. split; [ | reflexivity ].
  exists (Js.Boolean true). split; reflexivity.
Defined.




(** ** More on the constructor of a request *)

(** X14: the type is checked before the quantity. An unrecognised type
    raises the TypeError 'type must be one of ADULT, CHILD, or INFANT',
    whatever the quantity is; a recognised type with a quantity that is
    not an integer raises the TypeError 'noOfTickets must be an
    integer'. *)
Theorem constructor_checks_type_first (type quantity : Js.Value) :
  (~ Spec.recognizedType type ->
   TicketTypeRequest.constructor type quantity
   = Js.Throws
       (Js.mkError Js.TypeError
          "type must be one of ADULT, CHILD, or INFANT"))
  /\ (Spec.recognizedType type -> ~ Spec.wholeNumber quantity ->
      TicketTypeRequest.constructor type quantity
      = Js.Throws
          (Js.mkError Js.TypeError "noOfTickets must be an integer")).
Proof.
  unfold TicketTypeRequest.constructor. split.
  - intros Hty. rewrite <- includes_Type in Hty.
    apply not_true_is_false in Hty. now rewrite Hty.
  - intros Hty Hq. rewrite <- includes_Type in Hty.
    rewrite <- isInteger_whole in Hq. apply not_true_is_false in Hq.
    now rewrite Hty, Hq.
Qed.

(** X15: every pair of one of the three type names and an integer, of
    either sign, is constructed; constructing again from what the two
    accessors of an object give yields an equal object, and two
    constructions that give equal objects had equal arguments. *)
Theorem constructor_of_accessors (r : TicketTypeRequest.t) :
  TicketTypeRequest.constructor
    (Js.Str (TicketType_name (getTicketType r)))
    (Js.Num (Js.Integer (getNoOfTickets r)))
  = Js.Gives r
  /\ (forall type quantity type' quantity',
        TicketTypeRequest.constructor type quantity = Js.Gives r ->
        TicketTypeRequest.constructor type' quantity' = Js.Gives r ->
        type = type' /\ quantity = quantity').
Proof.
  split.
  - now apply constructor_gives.
  - intros type quantity type' quantity' H H'.
    apply constructor_gives in H. apply constructor_gives in H'.
    destruct H as [-> ->]. destruct H' as [-> ->]. now split.
Qed.

(** ** The test suite *)

Lemma run_cons (test : TicketServiceTest.t -> TicketServiceTest.t * bool)
    (rest : list (TicketServiceTest.t -> TicketServiceTest.t * bool))
    (this : TicketServiceTest.t) :
  snd (TicketServiceTest.run (test :: rest) this)
  = snd (test (TicketServiceTest.beforeEach this))
    :: snd (TicketServiceTest.run rest
              (fst (test (TicketServiceTest.beforeEach this)))).
Proof.
  simpl. destruct (test (TicketServiceTest.beforeEach this)) as [this' ok].
  simpl. now destruct (TicketServiceTest.run rest this').
Qed.

Lemma each_test_passes
    (test : TicketServiceTest.t -> TicketServiceTest.t * bool)
    (this : TicketServiceTest.t) :
  In test TicketServiceTest.tests ->
  snd (test (TicketServiceTest.beforeEach this)) = true.
Proof.
  intros Hin.
  repeat (destruct Hin as [<- | Hin]; [ reflexivity | ]).
  destruct Hin.
Qed.

(** X16: the seven tests of the suite all meet their expectations, and
    they do so in any order, selection and repetition and from any
    fixture, because [beforeEach] resets what a test may have changed (the
    account id, the expected seats, the service with its collaborators). *)
Theorem test_suite_passes_in_any_order
    (ts : list (TicketServiceTest.t -> TicketServiceTest.t * bool))
    (this : TicketServiceTest.t) :
  (forall test, In test ts -> In test TicketServiceTest.tests) ->
  snd (TicketServiceTest.run ts this) = map (fun _ => true) ts
  /\ TicketServiceTest.runTests
     = [true; true; true; true; true; true; true].
Proof.
  intros Hts. split; [ | reflexivity ].
  revert this. induction ts as [ | test rest IH]; intros this.
  - reflexivity.
  - rewrite run_cons, each_test_passes by (apply Hts; now left).
    rewrite IH by (intros t Ht; apply Hts; now right).
    reflexivity.
Qed.

Lemma test_suite_passes_in_any_order_funds_first :
  snd (TicketServiceTest.run
         [TicketServiceTest.test_without_sufficient_funds;
          TicketServiceTest.test_invalid_account_id;
          TicketServiceTest.test_valid_request]
         TicketServiceTest.constructor)
  = [true; true; true].
Proof.
  refine (proj1 (test_suite_passes_in_any_order
                   [TicketServiceTest.test_without_sufficient_funds;
                    TicketServiceTest.test_invalid_account_id;
                    TicketServiceTest.test_valid_request]
                   TicketServiceTest.constructor _)).
  intros test [<- | [<- | [<- | []]]]; simpl; tauto.
Defined.
